(** * ProductList: a block tool for Editor.js (src/index.js)

    A shallow embedding of the [ProductList] class and of the parts of the
    JavaScript runtime and of the DOM that its methods touch, followed by the
    properties of the tool that have been checked against it.

    Layout:
    - JavaScript strings and values;
    - the built-in operations the class calls;
    - the widget state (fields of [this], the DOM nodes it owns, and the
      host services it talks to);
    - the methods of the class, in the order of the source;
    - the theorems. *)

From stdpp Require Import gmap strings list.
From Stdlib Require Import ZArith Lia.

Open Scope Z_scope.

(** ** Strings

    A JavaScript string is a sequence of UTF-16 code units.  The regular
    expressions of the source carry no [u] flag, so they too work on code
    units. *)

Abbreviation jsstring := (list Z).

Definition code_unit (a : Ascii.ascii) : Z := Z.of_N (Ascii.N_of_ascii a).

(** [js "abc"] is the JavaScript literal ['abc'] (ASCII only). *)
Fixpoint js (s : string) : jsstring :=
  match s with
  | EmptyString => []
  | String a rest => code_unit a :: js rest
  end.

Fixpoint jsstring_eqb (s t : jsstring) : bool :=
  match s, t with
  | [], [] => true
  | c :: s', d :: t' => (c =? d) && jsstring_eqb s' t'
  | _, _ => false
  end.

(** [s == ''] for a string [s]. *)
Definition is_empty (s : jsstring) : bool :=
  match s with
  | [] => true
  | _ :: _ => false
  end.

(** [String.fromCharCode]: the argument is taken modulo 2^16. *)
Definition fromCharCode (n : Z) : Z := n mod 65536.

(** [String.prototype.startsWith] *)
Fixpoint startsWith (s t : jsstring) {struct t} : bool :=
  match t, s with
  | [], _ => true
  | d :: t', c :: s' => (c =? d) && startsWith s' t'
  | _ :: _, [] => false
  end.

(** [String.prototype.includes], searching from position 0. *)
Fixpoint includes (s t : jsstring) : bool :=
  startsWith s t ||
  match s with
  | [] => false
  | _ :: s' => includes s' t
  end.

(** White space and line terminators, as [String.prototype.trim] sees
    them (ECMAScript WhiteSpace and LineTerminator productions). *)
Definition is_whitespace (c : Z) : bool :=
  ((0x09 <=? c) && (c <=? 0x0D))
  || (c =? 0x20) || (c =? 0xA0) || (c =? 0x1680)
  || ((0x2000 <=? c) && (c <=? 0x200A))
  || (c =? 0x2028) || (c =? 0x2029) || (c =? 0x202F)
  || (c =? 0x205F) || (c =? 0x3000) || (c =? 0xFEFF).

Fixpoint trimStart (s : jsstring) : jsstring :=
  match s with
  | [] => []
  | c :: s' => if is_whitespace c then trimStart s' else s
  end.

Definition trimEnd (s : jsstring) : jsstring := rev (trimStart (rev s)).

(** [String.prototype.trim] *)
Definition trim (s : jsstring) : jsstring := trimEnd (trimStart s).

(** The yen glyph, U+5186. *)
Definition yen : Z := 0x5186.

(** [/円/.test(s)] for a string [s] *)
Definition has_yen (s : jsstring) : bool := existsb (Z.eqb yen) s.

(** [s.replace('円', '')]: a string pattern replaces the first match only. *)
Fixpoint remove_first_yen (s : jsstring) : jsstring :=
  match s with
  | [] => []
  | c :: s' => if c =? yen then s' else c :: remove_first_yen s'
  end.

(** ** Values

    [plain] are the values that hosts and servers hand to the tool: the
    saved block data, the tool configuration, the parsed response body.
    Numbers are kept up to what the source asks of them (falsy or not):
    [PNum z] for a finite number, [PNaN] for NaN.  An object is a finite
    map from property names to values. *)

#[warnings="-register-all"]
Inductive plain :=
| PUndefined
| PNull
| PBool (b : bool)
| PNaN
| PNum (z : Z)
| PStr (s : jsstring)
| PObj (props : gmap string plain)
| PArr (elems : list plain).

(** Reading [.link] off a primitive string yields the legacy method
    [String.prototype.link]; this is the only function that a property read
    of the source can return, and only [ToolData.link] can hold it. *)
Inductive value :=
| Plain (p : plain)
| StringPrototypeLink.

(** ToBoolean *)
Definition truthy (p : plain) : bool :=
  match p with
  | PUndefined | PNull | PNaN => false
  | PBool b => b
  | PNum z => negb (z =? 0)
  | PStr s => negb (is_empty s)
  | PObj _ | PArr _ => true
  end.

Definition vtruthy (v : value) : bool :=
  match v with
  | Plain p => truthy p
  | StringPrototypeLink => true
  end.

(** [a || b] *)
Definition or_else (a b : plain) : plain := if truthy a then a else b.

Definition vor_else (a b : value) : value := if vtruthy a then a else b.

(** [p === s] for a string literal [s] *)
Definition is_string (p : plain) (s : jsstring) : bool :=
  match p with
  | PStr s' => jsstring_eqb s' s
  | _ => false
  end.

(** ** Exceptions *)

Inductive error := TypeError | RequestError.

Inductive outcome (A : Type) :=
| Ret (a : A)
| Throw (e : error).

Arguments Ret {A} a.
Arguments Throw {A} e.

Definition obind {A B : Type} (o : outcome A) (k : A -> outcome B) : outcome B :=
  match o with
  | Ret a => k a
  | Throw e => Throw e
  end.

Notation "x <~ o ;; k" := (obind o (fun x => k))
  (at level 20, o at level 99, k at level 200, only parsing).

(** ** Property reads and method calls on values *)

(** [p.k] for a property name [k] that no prototype defines: own properties
    of objects only.  Every name the source reads is of this kind, except
    [link]. *)
Definition member (p : plain) (k : string) : outcome plain :=
  match p with
  | PUndefined | PNull => Throw TypeError
  | PObj props => Ret (default PUndefined (props !! k))
  | _ => Ret PUndefined
  end.

(** [p.link] *)
Definition member_link (p : plain) : outcome value :=
  match p with
  | PUndefined | PNull => Throw TypeError
  | PObj props => Ret (Plain (default PUndefined (props !! "link"%string)))
  | PStr _ => Ret StringPrototypeLink
  | _ => Ret (Plain PUndefined)
  end.

(** [Object.keys(p).length] *)
Definition keys_length (p : plain) : outcome nat :=
  match p with
  | PUndefined | PNull => Throw TypeError
  | PObj props => Ret (size props)
  | PStr s => Ret (length s)
  | PArr elems => Ret (length elems)
  | _ => Ret 0%nat
  end.

(** The elements over which [p.map(f)] and [p.filter(f)] run: only arrays
    have these methods. *)
Definition array_elems (p : plain) : outcome (list plain) :=
  match p with
  | PArr elems => Ret elems
  | _ => Throw TypeError
  end.

(** [elems.filter(f)] for a callback without side effects that may throw *)
Fixpoint filter_elems (f : plain -> outcome bool) (elems : list plain)
  : outcome (list plain) :=
  match elems with
  | [] => Ret []
  | x :: rest =>
      b <~ f x;;
      kept <~ filter_elems f rest;;
      Ret (if b then x :: kept else kept)
  end.

(** ** Conversions

    ToString(p) and ToNumber(p) complete on every primitive value.  On an
    object they call its [toString]: the one of [Object.prototype] returns
    a string, while an own property [toString], which in a value of this
    type is never a function, makes both throw a [TypeError].  On an array
    they join its elements, converting each but [null] and [undefined]. *)
Fixpoint stringifiable (p : plain) : bool :=
  match p with
  | PObj props =>
      match props !! "toString"%string with
      | Some _ => false
      | None => true
      end
  | PArr elems => forallb stringifiable elems
  | _ => true
  end.

Definition vstringifiable (v : value) : bool :=
  match v with
  | Plain p => stringifiable p
  | StringPrototypeLink => true
  end.

(** A write of [p] to a property of a DOM node that holds a string
    ([textContent], [src], [placeholder]) or a number ([value] of an [li]):
    the conversion runs first, and may throw. *)
Definition dom_write (p : plain) : outcome plain :=
  if stringifiable p then Ret p else Throw TypeError.

(** [setAttribute(name, v)] *)
Definition dom_write_value (v : value) : outcome value :=
  if vstringifiable v then Ret v else Throw TypeError.

(** Does the string that [p] converts to hold a yen glyph?  Among the
    values that are not strings only an array can print one ([null] and
    [undefined] print as nothing, an object as [[object Object]]). *)
Fixpoint prints_yen (p : plain) : bool :=
  match p with
  | PStr s => has_yen s
  | PArr elems => existsb prints_yen elems
  | _ => false
  end.

(** [/円/.test(p)]: the argument is converted to a string first. *)
Definition test_yen (p : plain) : outcome bool :=
  if stringifiable p then Ret (prints_yen p) else Throw TypeError.

Arguments dom_write : simpl never.
Arguments dom_write_value : simpl never.
Arguments test_yen : simpl never.

(** ** ProductList.replaceFullWidthCharactersWithHalfWidth *)

Definition is_full_width (ch : Z) : bool := (0xFF01 <=? ch) && (ch <=? 0xFF5E).

Definition replaceFullWidthCharactersWithHalfWidth (s : jsstring) : jsstring :=
  map (fun ch => if is_full_width ch then fromCharCode (ch - 0xFEE0) else ch) s.

(** ** The specification's words for the filter *)

Definition half_width (c : Z) : Z :=
  if bool_decide (0xFF01 <= c <= 0xFF5E) then c - 0xFEE0 else c.

Definition contains (s t : jsstring) : Prop :=
  exists pre post : jsstring, s = pre ++ t ++ post.

(** ** Services of the JavaScript runtime

    Two built-ins are left abstract: Unicode case conversion, and URL
    parsing ([new URL(v).hostname]; [None] when the constructor throws). *)

Class Runtime := {
  toLowerCase : jsstring -> jsstring;
  hostname : value -> option jsstring;
}.

(** A small runtime to run the model on examples: it lowers the ASCII,
    Latin-1 and full-width capital letters, and parses [http://host/...]. *)
Definition lower_unit (c : Z) : Z :=
  if ((0x41 <=? c) && (c <=? 0x5A))
     || ((0xC0 <=? c) && (c <=? 0xDE) && negb (c =? 0xD7))
     || ((0xFF21 <=? c) && (c <=? 0xFF3A))
  then c + 0x20 else c.

Fixpoint until_slash (s : jsstring) : jsstring :=
  match s with
  | [] => []
  | c :: s' => if c =? 0x2F then [] else c :: until_slash s'
  end.

Definition sample_runtime : Runtime := {|
  toLowerCase := map lower_unit;
  hostname v :=
    match v with
    | Plain (PStr s) =>
        if startsWith s (js "http://") then Some (until_slash (drop 7 s)) else None
    | _ => None
    end;
|}.

(** ** The widget *)

(** The part of the host API the tool uses: [api.i18n.t] and the two class
    names of [api.styles].  [api.notifier.show] appends to a log kept in the
    widget state. *)
Record Api := {
  i18n_t : jsstring -> jsstring;
  styles_block : jsstring;
  styles_input : jsstring;
}.

(** [this.config] *)
Record Config := {
  endpoint : plain;
  headers : plain;
  acList : plain;
  placeholder : plain;
  language : plain;
}.

(** [this._data] *)
Record ToolData := {
  link : value;
  meta : plain;
}.

(** An [li] of the product list: the [url] and [title] its click handler
    closes over ([title] is also its text). *)
Record Li := {
  li_url : plain;
  li_title : plain;
}.

(** The nodes built by [makeInputHolder]: the holder ([nodes.inputHolder]),
    [this.select], [this.input], the list [ul#productsList] and
    [nodes.progress]. *)
Record InputView := {
  holder_error : bool;        (* holder has class link-tool__input-holder--error *)
  select_active : bool;       (* select has class is-active *)
  select_attached : bool;     (* false once select.remove() has run *)
  input_placeholder : plain;
  input_value : plain;        (* last value the script assigned to the input *)
  products : list Li;         (* children of ul#productsList *)
  progress_loading : bool;    (* progress has class loading *)
  progress_loaded : bool;     (* progress has class loaded *)
}.

(** The nodes built by [prepareLinkPreview] and filled by
    [showLinkPreview], each seen through what the script writes to it. *)
Record Preview := {
  images : list plain;                 (* src of the img elements in nodes.linkImage *)
  linkTitle : option plain;            (* nodes.linkTitle.textContent *)
  linkDescription : option plain;      (* nodes.linkDescription.textContent *)
  href : option value;                 (* href of nodes.anchor *)
  infoWeek : option plain;             (* nodes.infoWeek.textContent *)
  infoPrice : option plain;            (* nodes.infoPrice.textContent *)
}.

(** Children of [nodes.container] *)
Inductive Child := InputHolderNode | LinkContentNode.

Global Instance Child_eq_dec : EqDecision Child.
Proof. solve_decision. Defined.

(** An argument of [api.notifier.show] *)
Record Notification := {
  message : jsstring;
  style : jsstring;
}.

(** An argument of [ajax.get] *)
Record Request := {
  req_url : plain;
  req_headers : plain;
  req_data_url : plain;
}.

(** The rest of the document.  [makeInputHolder] gives the id
    [productSelectFilter] to its input and the id [productsList] to its list,
    in every block of the tool, and [document.getElementById] returns the
    first element of the document that carries an id.  For each of the two
    ids the model keeps the first element outside the widget that carries
    it, if there is one, and whether it stands before the widget's own. *)
Record OtherList := {
  list_precedes : bool;
  list_items : list Li;       (* its children *)
}.

Record OtherInput := {
  input_precedes : bool;
  input_reads : plain;        (* what [.value] reads on it: a string on an
                                 input, [undefined] on most other elements *)
}.

Record Elsewhere := {
  other_list : option OtherList;
  other_input : option OtherInput;
}.

Definition nowhere : Elsewhere := {| other_list := None; other_input := None |}.

Record Widget := {
  api : Api;
  readOnly : bool;
  config : Config;
  _data : ToolData;
  url : plain;
  container : option (list Child);   (* nodes.container and its children *)
  inputView : option InputView;
  preview : option Preview;
  in_document : bool;                (* the host has inserted nodes.wrapper *)
  notifier : list Notification;      (* calls of api.notifier.show *)
  ajax : list Request;               (* calls of ajax.get *)
  console : list plain;              (* calls of console.error *)
  elsewhere : Elsewhere;             (* the rest of the document *)
}.

(** Field updates *)

Definition with_data (d : ToolData) (w : Widget) : Widget :=
  {| api := api w; readOnly := readOnly w; config := config w; _data := d;
     url := url w; container := container w; inputView := inputView w;
     preview := preview w; in_document := in_document w;
     notifier := notifier w; ajax := ajax w; console := console w;
     elsewhere := elsewhere w |}.

Definition with_url (u : plain) (w : Widget) : Widget :=
  {| api := api w; readOnly := readOnly w; config := config w; _data := _data w;
     url := u; container := container w; inputView := inputView w;
     preview := preview w; in_document := in_document w;
     notifier := notifier w; ajax := ajax w; console := console w;
     elsewhere := elsewhere w |}.

Definition with_container (c : option (list Child)) (w : Widget) : Widget :=
  {| api := api w; readOnly := readOnly w; config := config w; _data := _data w;
     url := url w; container := c; inputView := inputView w;
     preview := preview w; in_document := in_document w;
     notifier := notifier w; ajax := ajax w; console := console w;
     elsewhere := elsewhere w |}.

Definition with_inputView (v : option InputView) (w : Widget) : Widget :=
  {| api := api w; readOnly := readOnly w; config := config w; _data := _data w;
     url := url w; container := container w; inputView := v;
     preview := preview w; in_document := in_document w;
     notifier := notifier w; ajax := ajax w; console := console w;
     elsewhere := elsewhere w |}.

Definition with_preview (p : option Preview) (w : Widget) : Widget :=
  {| api := api w; readOnly := readOnly w; config := config w; _data := _data w;
     url := url w; container := container w; inputView := inputView w;
     preview := p; in_document := in_document w;
     notifier := notifier w; ajax := ajax w; console := console w;
     elsewhere := elsewhere w |}.

Definition with_in_document (b : bool) (w : Widget) : Widget :=
  {| api := api w; readOnly := readOnly w; config := config w; _data := _data w;
     url := url w; container := container w; inputView := inputView w;
     preview := preview w; in_document := b;
     notifier := notifier w; ajax := ajax w; console := console w;
     elsewhere := elsewhere w |}.

Definition with_notifier (n : list Notification) (w : Widget) : Widget :=
  {| api := api w; readOnly := readOnly w; config := config w; _data := _data w;
     url := url w; container := container w; inputView := inputView w;
     preview := preview w; in_document := in_document w;
     notifier := n; ajax := ajax w; console := console w;
     elsewhere := elsewhere w |}.

Definition with_ajax (a : list Request) (w : Widget) : Widget :=
  {| api := api w; readOnly := readOnly w; config := config w; _data := _data w;
     url := url w; container := container w; inputView := inputView w;
     preview := preview w; in_document := in_document w;
     notifier := notifier w; ajax := a; console := console w;
     elsewhere := elsewhere w |}.

Definition with_console (c : list plain) (w : Widget) : Widget :=
  {| api := api w; readOnly := readOnly w; config := config w; _data := _data w;
     url := url w; container := container w; inputView := inputView w;
     preview := preview w; in_document := in_document w;
     notifier := notifier w; ajax := ajax w; console := c;
     elsewhere := elsewhere w |}.

Definition with_elsewhere (e : Elsewhere) (w : Widget) : Widget :=
  {| api := api w; readOnly := readOnly w; config := config w; _data := _data w;
     url := url w; container := container w; inputView := inputView w;
     preview := preview w; in_document := in_document w;
     notifier := notifier w; ajax := ajax w; console := console w;
     elsewhere := e |}.

Definition with_holder_error (b : bool) (v : InputView) : InputView :=
  {| holder_error := b; select_active := select_active v;
     select_attached := select_attached v;
     input_placeholder := input_placeholder v; input_value := input_value v;
     products := products v; progress_loading := progress_loading v;
     progress_loaded := progress_loaded v |}.

Definition with_select_active (b : bool) (v : InputView) : InputView :=
  {| holder_error := holder_error v; select_active := b;
     select_attached := select_attached v;
     input_placeholder := input_placeholder v; input_value := input_value v;
     products := products v; progress_loading := progress_loading v;
     progress_loaded := progress_loaded v |}.

Definition with_select_attached (b : bool) (v : InputView) : InputView :=
  {| holder_error := holder_error v; select_active := select_active v;
     select_attached := b;
     input_placeholder := input_placeholder v; input_value := input_value v;
     products := products v; progress_loading := progress_loading v;
     progress_loaded := progress_loaded v |}.

Definition with_input_value (x : plain) (v : InputView) : InputView :=
  {| holder_error := holder_error v; select_active := select_active v;
     select_attached := select_attached v;
     input_placeholder := input_placeholder v; input_value := x;
     products := products v; progress_loading := progress_loading v;
     progress_loaded := progress_loaded v |}.

Definition with_products (l : list Li) (v : InputView) : InputView :=
  {| holder_error := holder_error v; select_active := select_active v;
     select_attached := select_attached v;
     input_placeholder := input_placeholder v; input_value := input_value v;
     products := l; progress_loading := progress_loading v;
     progress_loaded := progress_loaded v |}.

Definition with_progress (loading loaded : bool) (v : InputView) : InputView :=
  {| holder_error := holder_error v; select_active := select_active v;
     select_attached := select_attached v;
     input_placeholder := input_placeholder v; input_value := input_value v;
     products := products v; progress_loading := loading;
     progress_loaded := loaded |}.

(** ** Methods: state passing with exceptions

    A method runs on a widget and leaves a widget, whether it returns or
    throws: an exception does not undo the writes made before it. *)

Definition Method (A : Type) : Type := Widget -> outcome A * Widget.

Definition ret {A : Type} (a : A) : Method A := fun w => (Ret a, w).

Definition throw {A : Type} (e : error) : Method A := fun w => (Throw e, w).

Definition bind {A B : Type} (m : Method A) (k : A -> Method B) : Method B :=
  fun w =>
    match m w with
    | (Ret a, w') => k a w'
    | (Throw e, w') => (Throw e, w')
    end.

(** [try { m } catch (error) { h }] *)
Definition try_catch {A : Type} (m : Method A) (h : Method A) : Method A :=
  fun w =>
    match m w with
    | (Ret a, w') => (Ret a, w')
    | (Throw _, w') => h w'
    end.

(** A read or call that may throw but writes nothing. *)
Definition lift {A : Type} (o : outcome A) : Method A := fun w => (o, w).

Definition gets {A : Type} (f : Widget -> A) : Method A := fun w => (Ret (f w), w).

Definition modify (f : Widget -> Widget) : Method unit := fun w => (Ret tt, f w).

Declare Scope method_scope.
Delimit Scope method_scope with method.
Bind Scope method_scope with Method.

Notation "x <- m ;; k" := (bind m (fun x => k))
  (at level 20, m at level 99, k at level 200, only parsing) : method_scope.
Notation "m ;; k" := (bind m (fun _ => k))
  (at level 100, k at level 200, only parsing, right associativity) : method_scope.

Open Scope method_scope.

(** The state a method leaves, and what it returns. *)
Definition after {A : Type} (m : Method A) (w : Widget) : Widget := snd (m w).

Definition result {A : Type} (m : Method A) (w : Widget) : outcome A := fst (m w).

(** ** The class ProductList *)

(** The object on the right of [this.data = ...], seen through the two
    property reads of the setter; a property that is absent reads as
    [undefined]. *)
Record Assigned := {
  a_link : value;
  a_meta : plain;
}.

(** What [ajax.get] settles with: a response [{ body, code }], or a
    rejection. *)
Inductive Reply :=
| Resolved (body : plain) (code : Z)
| Rejected.

(** A catalog entry as the configuration documents it, and the object the
    host passes for it. *)
Record CatalogEntry := {
  entry_url : jsstring;
  entry_title : jsstring;
}.

Definition entry_object (e : CatalogEntry) : plain :=
  PObj (<["url"%string := PStr (entry_url e)]>
        (<["title"%string := PStr (entry_title e)]> ∅)).

Definition entry_li (e : CatalogEntry) : Li :=
  {| li_url := PStr (entry_url e); li_title := PStr (entry_title e) |}.

Definition empty_preview : Preview :=
  {| images := []; linkTitle := None; linkDescription := None; href := None;
     infoWeek := None; infoPrice := None |}.

(** [parent.appendChild(c)]: a node that is already a child moves to the
    end. *)
Definition appendChild (c : Child) (l : list Child) : list Child :=
  List.filter (fun x => negb (bool_decide (x = c))) l ++ [c].

Definition removeChild (c : Child) (l : list Child) : list Child :=
  List.filter (fun x => negb (bool_decide (x = c))) l.

(** Is the node [c] built yet, or still [null]? *)
Definition node_exists (c : Child) (w : Widget) : bool :=
  match c with
  | InputHolderNode => bool_decide (is_Some (inputView w))
  | LinkContentNode => bool_decide (is_Some (preview w))
  end.

(** [this.nodes.container.appendChild(c)] *)
Definition container_appendChild (c : Child) : Method unit :=
  fun w =>
    match container w with
    | Some l =>
        if node_exists c w
        then (Ret tt, with_container (Some (appendChild c l)) w)
        else (Throw TypeError, w)
    | None => (Throw TypeError, w)
    end.

(** A write to one of the nodes of the input view *)
Definition update_view (f : InputView -> InputView) : Method unit :=
  fun w =>
    match inputView w with
    | Some v => (Ret tt, with_inputView (Some (f v)) w)
    | None => (Throw TypeError, w)
    end.

(** A write to one of the nodes of the preview *)
Definition update_preview (f : Preview -> Preview) : Method unit :=
  fun w =>
    match preview w with
    | Some p => (Ret tt, with_preview (Some (f p)) w)
    | None => (Throw TypeError, w)
    end.

(** The list of the widget is in the document when the host has inserted
    the wrapper and the holder is in the container. *)
Definition own_list_in_document (w : Widget) : bool :=
  in_document w
  && match inputView w, container w with
     | Some _, Some l => bool_decide (InputHolderNode ∈ l)
     | _, _ => false
     end.

(** The input of the widget is in the document when, moreover, the select
    has not been removed. *)
Definition own_input_in_document (w : Widget) : bool :=
  own_list_in_document w
  && match inputView w with
     | Some v => select_attached v
     | None => false
     end.

(** What [document.getElementById] returns: the node of the widget, the
    element elsewhere, or [null]. *)
Inductive Found := Own | Other | Missing.

(** The first element in the order of the document, given whether the
    widget's own is in the document, and whether there is one elsewhere,
    before it or not. *)
Definition first_with_id (own : bool) (other_precedes : option bool) : Found :=
  match other_precedes with
  | Some true => Other
  | Some false => if own then Own else Other
  | None => if own then Own else Missing
  end.

(** [document.getElementById('productsList')] *)
Definition getElementById_productsList (w : Widget) : Found :=
  first_with_id (own_list_in_document w)
    (list_precedes <$> other_list (elsewhere w)).

(** [document.getElementById('productSelectFilter')] *)
Definition getElementById_productSelectFilter (w : Widget) : Found :=
  first_with_id (own_input_in_document w)
    (input_precedes <$> other_input (elsewhere w)).

(** A write to the children of the list elsewhere *)
Definition update_other_list (f : list Li -> list Li) : Method unit :=
  fun w =>
    match other_list (elsewhere w) with
    | Some o =>
        (Ret tt,
         with_elsewhere
           {| other_list := Some {| list_precedes := list_precedes o;
                                    list_items := f (list_items o) |};
              other_input := other_input (elsewhere w) |} w)
    | None => (Throw TypeError, w)
    end.

(** [this.headers]: no member of this name is ever assigned. *)
Definition this_headers (w : Widget) : plain := PUndefined.

(** [console.error(p)] *)
Definition console_error (p : plain) : Method unit :=
  modify (fun w => with_console (console w ++ [p]) w).

(** [set data(data)] *)
Definition set_data (d : Assigned) : Method unit :=
  modify (fun w =>
    with_data {| link := vor_else (a_link d) (link (_data w));
                 meta := or_else (a_meta d) (meta (_data w)) |} w).

(** [this.data = data] for a value [data] of the host *)
Definition assign_data (data : plain) : Method unit :=
  l <- lift (member_link data);;
  m <- lift (member data "meta");;
  set_data {| a_link := l; a_meta := m |}.

(** [get data()] *)
Definition get_data : Method ToolData := gets _data.

(** [constructor({ data, config, api, readOnly })] *)
Definition constructor (data config : plain) (api : Api) (readOnly : bool)
  : outcome Widget :=
  e <~ member config "endpoint";;
  h <~ member config "headers";;
  a <~ member config "acList";;
  p <~ member config "placeHolder";;
  l <~ member config "language";;
  let w :=
    {| api := api; readOnly := readOnly;
       config := {| endpoint := or_else e (PStr []);
                    headers := or_else h (PObj ∅);
                    acList := or_else a (PObj ∅);
                    placeholder := or_else p (PObj ∅);
                    language := or_else l (PStr []) |};
       _data := {| link := Plain (PStr []); meta := PObj ∅ |};
       url := PStr [];
       container := None; inputView := None; preview := None;
       in_document := false; notifier := []; ajax := []; console := [];
       elsewhere := nowhere |} in
  match assign_data data w with
  | (Ret _, w') => Ret w'
  | (Throw err, _) => Throw err
  end.

(** [save()] *)
Definition save : Method ToolData := get_data.

(** [validate()] *)
Definition validate : Method bool :=
  d <- get_data;;
  match link d with
  | Plain (PStr s) => ret (negb (is_empty (trim s)))
  | _ => throw TypeError
  end.

(** The callback of [acList.map] and of [pList.map], up to the [li] it
    builds. *)
Definition make_li (list : plain) : outcome Li :=
  u <~ member list "url";;
  t <~ member list "title";;
  value <~ dom_write u;;         (* make('li', null, { value: url }) *)
  text <~ dom_write t;;          (* link.textContent = title *)
  Ret {| li_url := value; li_title := text |}.

Fixpoint make_lis (elems : list plain) : outcome (list Li) :=
  match elems with
  | [] => Ret []
  | x :: rest =>
      li <~ make_li x;;
      lis <~ make_lis rest;;
      Ret (li :: lis)
  end.

(** [makeInputHolder()].  The nodes of the input view appear together when
    the method returns; when [acList.map] throws, the ones built so far are
    dropped with the widget. *)
Definition makeInputHolder : Method unit :=
  cfg <- gets config;;
  shown <- lift (dom_write (placeholder cfg));;
  elems <- lift (array_elems (acList cfg));;
  lis <- lift (make_lis elems);;
  modify (with_inputView (Some
    {| holder_error := false; select_active := false; select_attached := true;
       input_placeholder := shown; input_value := PStr [];
       products := lis; progress_loading := false; progress_loaded := false |})).

(** [ulList.appendChild(link)] in [makeProductsList], where [ulList] is
    what [document.getElementById('productsList')] returns. *)
Definition productsList_appendChild (li : Li) : Method unit :=
  fun w =>
    match getElementById_productsList w with
    | Own => update_view (fun v => with_products (products v ++ [li]) v) w
    | Other => update_other_list (fun items => items ++ [li]) w
    | Missing => (Throw TypeError, w)
    end.

Fixpoint appendProducts (elems : list plain) : Method unit :=
  match elems with
  | [] => ret tt
  | x :: rest =>
      li <- lift (make_li x);;
      productsList_appendChild li;;
      appendProducts rest
  end.

(** [makeProductsList(pList)] *)
Definition makeProductsList (pList : plain) : Method unit :=
  elems <- lift (array_elems pList);;
  appendProducts elems.

(** [showProgress()] *)
Definition showProgress : Method unit :=
  update_view (fun v => with_progress true (progress_loaded v) v).

(** [hideProgress()].  The body runs inside a promise executor: when
    [nodes.progress] is [null] the promise is rejected and nothing is
    thrown.  The result tells whether the promise will be fulfilled (500 ms
    later). *)
Definition hideProgress : Method bool :=
  fun w =>
    match inputView w with
    | Some v => (Ret true, with_inputView (Some (with_progress false true v)) w)
    | None => (Ret false, w)
    end.

(** [removeErrorStyle()] *)
Definition removeErrorStyle : Method unit :=
  update_view (with_holder_error false).

(** [applyErrorStyle()] *)
Definition applyErrorStyle : Method unit :=
  update_view (with_holder_error true);;
  update_view (with_select_attached false).

(** [fetchingFailed(errorMessage)] *)
Definition fetchingFailed (errorMessage : jsstring) : Method unit :=
  modify (fun w =>
    with_notifier
      (notifier w ++ [{| message := errorMessage; style := js "error" |}]) w);;
  applyErrorStyle.

(** [this.api.i18n.t(key)] *)
Definition t (key : string) : Method jsstring :=
  gets (fun w => i18n_t (api w) (js key)).

(** [this.nodes.inputHolder.remove()] *)
Definition inputHolder_remove : Method unit :=
  fun w =>
    match inputView w with
    | Some _ =>
        (Ret tt, with_container (removeChild InputHolderNode <$> container w) w)
    | None => (Throw TypeError, w)
    end.

(** The text of the price line in [showLinkPreview]. *)
Definition priceText (lang price : plain) : outcome plain :=
  if negb (is_string lang (js "ja-JP")) then
    found <~ test_yen price;;
    if found : bool then
      match price with
      | PStr s => Ret (PStr (js "JPY " ++ remove_first_yen s))
      | _ => Throw TypeError
      end
    else Ret price
  else Ret price.

Arguments priceText : simpl never.

(** [ajax.get(request)] *)
Definition ajax_get (r : Request) : Method unit :=
  modify (fun w => with_ajax (ajax w ++ [r]) w).

(** [fetchLinkData(url)], up to its [await]. *)
Definition fetchLinkData (url : plain) : Method unit :=
  showProgress;;
  set_data {| a_link := Plain url; a_meta := PUndefined |};;
  cfg <- gets config;;
  hs <- gets this_headers;;
  ajax_get {| req_url := endpoint cfg; req_headers := hs; req_data_url := url |}.

(** [startFetching()] *)
Definition startFetching : Method unit :=
  u <- gets url;;
  removeErrorStyle;;
  fetchLinkData u.

(** The click handler of the input opens the list.  (The document
    listener that it registers, which closes the list on a click elsewhere,
    is left out.) *)
Definition input_click : Method unit :=
  update_view (with_select_active true).

(** The click handler of an [li].  The title was written as the text of
    the [li] when the [li] was made, so that its conversion to a string, for
    the value of the input, does not throw. *)
Definition li_click (li : Li) : Method unit :=
  modify (with_url (li_url li));;
  update_view (with_input_value (li_title li));;
  update_view (with_select_active false);;
  startFetching.

Section WithRuntime.

Context {rt : Runtime}.

(** [p.toLowerCase()] *)
Definition call_toLowerCase (p : plain) : outcome jsstring :=
  match p with
  | PStr s => Ret (toLowerCase s)
  | _ => Throw TypeError
  end.

(** The specification's words for the comparison: a text is lower-cased
    and its full-width characters are made half-width, which takes a
    character of U+FF01..U+FF5E to the ASCII character 0xFEE0 below it and
    leaves any other character; one text contains another when the other is
    a run of consecutive characters of it. *)
Definition folded (s : jsstring) : jsstring := map half_width (toLowerCase s).

(** The same two treatments in the other order: half-width first,
    lower-cased next. *)
Definition half_width_first (s : jsstring) : jsstring :=
  toLowerCase (map half_width s).

(** The form in which [filterProductsList] compares two texts: lower-cased
    first, full-width characters replaced next. *)
Definition normalized (s : jsstring) : jsstring :=
  replaceFullWidthCharactersWithHalfWidth (toLowerCase s).

(** The test that [filterProductsList] applies to a catalog entry. *)
Definition matches (filterText : jsstring) (e : CatalogEntry) : bool :=
  includes (normalized (entry_title e)) (normalized filterText).

(** [filterProductsList(filterText)] *)
Definition filterProductsList (filterText : jsstring) : Method unit :=
  let text := replaceFullWidthCharactersWithHalfWidth (toLowerCase filterText) in
  cfg <- gets config;;
  if is_empty text then
    makeProductsList (acList cfg)
  else
    elems <- lift (array_elems (acList cfg));;
    productsList <- lift (filter_elems (fun product =>
        title <~ member product "title";;
        lowered <~ call_toLowerCase title;;
        Ret (includes (replaceFullWidthCharactersWithHalfWidth lowered) text))
      elems);;
    makeProductsList (PArr productsList).

(** [ulList.innerHTML = ''] in [filteringProducts] *)
Definition productsList_clear : Method unit :=
  fun w =>
    match getElementById_productsList w with
    | Own => update_view (with_products []) w
    | Other => update_other_list (fun _ => []) w
    | Missing => (Throw TypeError, w)
    end.

(** [document.getElementById('productSelectFilter').value], where [typed] is
    the text that the input of the widget holds. *)
Definition productSelectFilter_value (typed : jsstring) : Method plain :=
  fun w =>
    match getElementById_productSelectFilter w with
    | Own => (Ret (PStr typed), w)
    | Other =>
        match other_input (elsewhere w) with
        | Some o => (Ret (input_reads o), w)
        | None => (Throw TypeError, w)
        end
    | Missing => (Throw TypeError, w)
    end.

(** The [keyup] handler [filteringProducts]; [typed] is the text that the
    input of the widget holds.  A value that is not a string has no
    [toLowerCase]. *)
Definition filteringProducts (typed : jsstring) : Method unit :=
  inputValue <- productSelectFilter_value typed;;
  productsList_clear;;
  match inputValue with
  | PStr filterText => filterProductsList filterText
  | _ => throw TypeError
  end.

(** [prepareLinkPreview()] *)
Definition prepareLinkPreview : Method unit :=
  modify (with_preview (Some empty_preview)).

(** [showLinkPreview(meta)] *)
Definition showLinkPreview (m : plain) : Method unit :=
  container_appendChild LinkContentNode;;
  image <- lift (member m "image");;
  (if truthy image
   then
     src <- lift (dom_write image);;
     update_preview (fun p =>
     {| images := images p ++ [src]; linkTitle := linkTitle p;
        linkDescription := linkDescription p; href := href p;
        infoWeek := infoWeek p; infoPrice := infoPrice p |})
   else ret tt);;
  title <- lift (member m "title");;
  (if truthy title
   then
     text <- lift (dom_write title);;
     update_preview (fun p =>
     {| images := images p; linkTitle := Some text;
        linkDescription := linkDescription p; href := href p;
        infoWeek := infoWeek p; infoPrice := infoPrice p |})
   else ret tt);;
  description <- lift (member m "description");;
  (if truthy description
   then
     text <- lift (dom_write description);;
     update_preview (fun p =>
     {| images := images p; linkTitle := linkTitle p;
        linkDescription := Some text; href := href p;
        infoWeek := infoWeek p; infoPrice := infoPrice p |})
   else ret tt);;
  d <- get_data;;
  address <- lift (dom_write_value (link d));;
  update_preview (fun p =>
     {| images := images p; linkTitle := linkTitle p;
        linkDescription := linkDescription p; href := Some address;
        infoWeek := infoWeek p; infoPrice := infoPrice p |});;
  price <- lift (member m "lowest_price_gross");;
  week <- lift (member m "operating_days_of_week");;
  (if truthy price || truthy week then
     (if truthy week
      then
        text <- lift (dom_write week);;
        update_preview (fun p =>
        {| images := images p; linkTitle := linkTitle p;
           linkDescription := linkDescription p; href := href p;
           infoWeek := Some text; infoPrice := infoPrice p |})
      else ret tt);;
     (if truthy price then
        cfg <- gets config;;
        priced <- lift (priceText (language cfg) price);;
        text <- lift (dom_write priced);;
        update_preview (fun p =>
          {| images := images p; linkTitle := linkTitle p;
             linkDescription := linkDescription p; href := href p;
             infoWeek := infoWeek p; infoPrice := Some text |})
      else ret tt)
   else ret tt);;
  d' <- get_data;;
  match hostname (link d') with
  | Some getHost =>
      if is_empty getHost
      then console_error (PStr (js "can't get host name"))
      else ret tt
  | None =>
      (* the handler writes to this.nodes.linkText, which does not exist *)
      throw TypeError
  end.

(** [render()] *)
Definition render : Method unit :=
  modify (with_container (Some []));;
  makeInputHolder;;
  prepareLinkPreview;;
  d <- get_data;;
  n <- lift (keys_length (meta d));;
  match n with
  | O => container_appendChild InputHolderNode
  | S _ =>
      container_appendChild LinkContentNode;;
      showLinkPreview (meta d)
  end.

(** The host inserts the node that [render] returned into the document. *)
Definition insert_into_document : Method unit := modify (with_in_document true).

(** The host changes the rest of the document: it adds or removes another
    block, say. *)
Definition document_changes (e : Elsewhere) : Method unit :=
  modify (with_elsewhere e).

(** [onFetch(response, code)].  The result is the metadata handed to the
    callback that [hideProgress().then] registers, if it will run. *)
Definition onFetch (response : plain) (code : Z) : Method (option plain) :=
  if 400 <=? code then
    msg <- t "Couldn't get this link data, try the other one";;
    fetchingFailed msg;;
    console_error response;;
    ret None
  else
    let metaData := response in
    l <- lift (member_link response);;
    d <- get_data;;
    let link := vor_else l (link d) in
    set_data {| a_meta := metaData; a_link := link |};;
    if negb (truthy metaData) then
      msg <- t "Wrong response format from the server";;
      fetchingFailed msg;;
      ret None
    else
      hidden <- hideProgress;;
      ret (if hidden : bool then Some metaData else None).

(** The callback run once the progress bar is hidden *)
Definition onProgressHidden (metaData : plain) : Method unit :=
  inputHolder_remove;;
  showLinkPreview metaData.

(** [fetchLinkData(url)], from the moment [ajax.get] settles. *)
Definition fetchLinkData_settled (r : Reply) : Method (option plain) :=
  try_catch
    match r with
    | Resolved body code => onFetch body code
    | Rejected => throw RequestError
    end
    (msg <- t "Couldn't fetch the link data";;
     fetchingFailed msg;;
     ret None).

(** One fetch, from the call of [fetchLinkData] to the end of the last
    callback it triggers. *)
Definition fetch_cycle (url : plain) (r : Reply) : Method unit :=
  fetchLinkData url;;
  pending <- fetchLinkData_settled r;;
  match pending with
  | Some metaData => onProgressHidden metaData
  | None => ret tt
  end.

End WithRuntime.

(** ** The notifications of the three failures, and the request *)

Definition link_data_error (w : Widget) : Notification :=
  {| message := i18n_t (api w) (js "Couldn't get this link data, try the other one");
     style := js "error" |}.

Definition fetch_error (w : Widget) : Notification :=
  {| message := i18n_t (api w) (js "Couldn't fetch the link data");
     style := js "error" |}.

Definition format_error (w : Widget) : Notification :=
  {| message := i18n_t (api w) (js "Wrong response format from the server");
     style := js "error" |}.

(** The request of [fetchLinkData(url)] *)
Definition request_of (w : Widget) (url : plain) : Request :=
  {| req_url := endpoint (config w); req_headers := PUndefined;
     req_data_url := url |}.

(** The text of the price line of the preview, when there is one. *)
Definition price_line (w : Widget) : option plain :=
  match preview w with
  | Some p => infoPrice p
  | None => None
  end.

(** ** Sample values, to run the methods on *)

(** Without a dictionary, [api.i18n.t] returns its key. *)
Definition sample_api : Api :=
  {| i18n_t := fun key => key;
     styles_block := js "cdx-block";
     styles_input := js "cdx-input" |}.

Definition apple : CatalogEntry :=
  {| entry_url := js "http://shop/apple"; entry_title := js "Apple Pie" |}.

(** Its title is written with the full-width letters of [BANANA]. *)
Definition banana : CatalogEntry :=
  {| entry_url := js "http://shop/banana";
     entry_title := [0xFF22; 0xFF21; 0xFF2E; 0xFF21; 0xFF2E; 0xFF21] |}.

Definition sample_headers : plain :=
  PObj (<["X-Token"%string := PStr (js "secret")]> ∅).

(** [{ endpoint: '/fetch', headers: { 'X-Token': 'secret' },
       acList: [apple, banana], language: 'en-US' }] *)
Definition sample_config : plain :=
  PObj (<["endpoint"%string := PStr (js "/fetch")]>
       (<["headers"%string := sample_headers]>
       (<["acList"%string := PArr [entry_object apple; entry_object banana]]>
       (<["language"%string := PStr (js "en-US")]> ∅)))).

(** The widget that the host gets from [new ProductList], [render()] and
    the insertion of the rendered node, for saved data [data]; a widget
    without nodes when one of the steps throws. *)
Definition mounted (data cfg : plain) : Widget :=
  let fresh (c : Config) :=
    {| api := sample_api; readOnly := false; config := c;
       _data := {| link := Plain (PStr []); meta := PObj ∅ |};
       url := PStr []; container := None; inputView := None; preview := None;
       in_document := false; notifier := []; ajax := []; console := [];
       elsewhere := nowhere |} in
  match constructor data cfg sample_api false with
  | Ret w =>
      match (@render sample_runtime;; insert_into_document) w with
      | (Ret _, w') => w'
      | (Throw _, _) => fresh (config w)
      end
  | Throw _ =>
      fresh {| endpoint := PUndefined; headers := PUndefined;
               acList := PUndefined; placeholder := PUndefined;
               language := PUndefined |}
  end.

(** A new block, and a block saved earlier with a link but no metadata. *)
Definition sample_widget : Widget := mounted (PObj ∅) sample_config.

(** An entry whose URL is the empty string. *)
Definition unlisted : CatalogEntry :=
  {| entry_url := js ""; entry_title := js "Coming soon" |}.

Definition saved_widget : Widget :=
  mounted (PObj (<["link"%string := PStr (js "http://shop/old")]> ∅))
    (PObj (<["acList"%string := PArr [entry_object apple; entry_object unlisted]]> ∅)).

(** The specification's wording for the price line, read literally: the
    string with the yen glyph removed, wherever it stands. *)
Definition without_yen (s : jsstring) : jsstring :=
  List.filter (fun c => negb (c =? yen)) s.

(** ** What the preview can show *)

(** The values of the metadata [m] under the keys [keys] convert to
    strings: the writes of [showLinkPreview] for these keys do not throw. *)
Definition fields_convert (keys : list string) (m : plain) : bool :=
  forallb (fun k =>
             match member m k with
             | Ret x => stringifiable x
             | Throw _ => false
             end) keys.

(** The keys written before the anchor gets its address, and the keys
    written before the price line. *)
Definition card_keys : list string := ["image"; "title"; "description"]%string.

Definition line_keys : list string :=
  ["image"; "title"; "description"; "operating_days_of_week"]%string.

(** ** Another block in the document *)

(** The new block, with another block of the tool before it in the
    document, whose input holds [pie]. *)
Definition second_widget : Widget :=
  with_elsewhere
    {| other_list := Some {| list_precedes := true; list_items := [] |};
       other_input := Some {| input_precedes := true;
                              input_reads := PStr (js "pie") |} |}
    sample_widget.

(** ** How a fetch ends *)

(** The replies on which a fetch fails: a rejected request, a status of 400
    or more, a falsy body. *)
Definition fails (r : Reply) : bool :=
  match r with
  | Rejected => true
  | Resolved body code => (400 <=? code) || negb (truthy body)
  end.

(** The message key of the notification that a failed fetch shows.  A body
    that is [null] or [undefined] makes [onFetch] throw, which ends in the
    handler of the rejected request. *)
Definition failure_key (r : Reply) : string :=
  match r with
  | Rejected => "Couldn't fetch the link data"
  | Resolved body code =>
      if 400 <=? code then "Couldn't get this link data, try the other one"
      else
        match body with
        | PUndefined | PNull => "Couldn't fetch the link data"
        | _ => "Wrong response format from the server"
        end
  end.

(** What every method keeps of the stored data: the metadata is truthy, and
    the link is [''] or truthy. *)
Definition data_ok (d : ToolData) : Prop :=
  truthy (meta d) = true
  /\ (link d = Plain (PStr []) \/ vtruthy (link d) = true).

(** The input view that [makeInputHolder] builds for a catalog. *)
Definition fresh_view (cfg : Config) (lis : list Li) : InputView :=
  {| holder_error := false; select_active := false; select_attached := true;
     input_placeholder := placeholder cfg; input_value := PStr [];
     products := lis; progress_loading := false; progress_loaded := false |}.

(** * Properties *)

(** ** The sample widgets are widgets of the class *)

Lemma sample_widget_mounted :
  exists w : Widget,
    constructor (PObj ∅) sample_config sample_api false = Ret w
    /\ (@render sample_runtime;; insert_into_document) w = (Ret tt, sample_widget).
Proof. eexists. split; vm_compute; reflexivity. Qed.

Lemma saved_widget_mounted :
  exists w : Widget,
    constructor (PObj (<["link"%string := PStr (js "http://shop/old")]> ∅))
      (PObj (<["acList"%string := PArr [entry_object apple; entry_object unlisted]]> ∅))
      sample_api false = Ret w
    /\ (@render sample_runtime;; insert_into_document) w = (Ret tt, saved_widget).
Proof. eexists. split; vm_compute; reflexivity. Qed.

(** ** Strings *)

Lemma startsWith_prefix (s t : jsstring) :
  startsWith s t = true <-> exists post, s = t ++ post.
Proof.
  revert s; induction t as [|d t IH]; intros s; simpl.
  - split; [exists s; reflexivity | reflexivity].
  - destruct s as [|c s].
    + split; [discriminate | intros [post Hp]; discriminate].
    + rewrite andb_true_iff, Z.eqb_eq, IH. split.
      * intros [-> [post ->]]. exists post. reflexivity.
      * intros [post Hp]. injection Hp as -> ->. split; [reflexivity | eauto].
Qed.

Lemma includes_substring (s t : jsstring) :
  includes s t = true <-> exists pre post, s = pre ++ t ++ post.
Proof.
  induction s as [|c s IH]; simpl.
  - rewrite orb_false_r, startsWith_prefix. split.
    + intros [post Hp]. exists [], post. exact Hp.
    + intros (pre & post & Hp). destruct pre; [exists post; exact Hp|discriminate].
  - rewrite orb_true_iff, IH, startsWith_prefix. split.
    + intros [[post Hp] | (pre & post & ->)].
      * exists [], post. exact Hp.
      * exists (c :: pre), post. reflexivity.
    + intros (pre & post & Hp). destruct pre as [|c' pre]; simpl in Hp.
      * left. exists post. exact Hp.
      * right. injection Hp as -> ->. eauto.
Qed.

Lemma includes_empty (s : jsstring) : includes s [] = true.
Proof. apply includes_substring. exists [], s. reflexivity. Qed.

Lemma is_empty_true (s : jsstring) : is_empty s = true <-> s = [].
Proof. destruct s; simpl; split; congruence. Qed.

Lemma jsstring_eqb_eq (s t : jsstring) : jsstring_eqb s t = true <-> s = t.
Proof.
  revert t; induction s as [|c s IH]; intros [|d t]; simpl;
    try (split; congruence).
  rewrite andb_true_iff, Z.eqb_eq, IH. split; [intros [-> ->]|intros [= -> ->]]; auto.
Qed.

Lemma trimStart_empty (s : jsstring) :
  trimStart s = [] <-> forallb is_whitespace s = true.
Proof.
  induction s as [|c s IH]; simpl; [tauto|].
  destruct (is_whitespace c); simpl; [exact IH | split; discriminate].
Qed.

Lemma trimStart_suffix (s : jsstring) :
  exists pre, s = pre ++ trimStart s /\ forallb is_whitespace pre = true.
Proof.
  induction s as [|c s (pre & Hs & Hpre)]; simpl.
  - exists []. split; reflexivity.
  - destruct (is_whitespace c) eqn:Hc.
    + exists (c :: pre). simpl. rewrite Hc, Hpre. split; [f_equal; exact Hs | reflexivity].
    + exists []. split; reflexivity.
Qed.

Lemma forallb_rev {A : Type} (f : A -> bool) (l : list A) :
  forallb f (rev l) = forallb f l.
Proof.
  induction l as [|x l IH]; simpl; [reflexivity|].
  rewrite forallb_app, IH. simpl. rewrite andb_true_r. apply andb_comm.
Qed.

(** [trim] leaves nothing exactly of the strings made of white space. *)
Lemma trim_empty (s : jsstring) :
  trim s = [] <-> forallb is_whitespace s = true.
Proof.
  unfold trim, trimEnd. split.
  - intros Ht. apply (f_equal (@rev Z)) in Ht. rewrite rev_involutive in Ht.
    simpl in Ht. apply trimStart_empty in Ht. rewrite forallb_rev in Ht.
    destruct (trimStart_suffix s) as (pre & Hs & Hpre).
    rewrite Hs, forallb_app, Hpre, Ht. reflexivity.
  - intros Hs. apply trimStart_empty in Hs. rewrite Hs. reflexivity.
Qed.

Lemma lookup_map {A B : Type} (f : A -> B) (l : list A) (i : nat) :
  map f l !! i = f <$> l !! i.
Proof.
  revert i; induction l as [|x l IH]; intros [|i]; simpl; auto.
Qed.

(** ** replaceFullWidthCharactersWithHalfWidth *)

Lemma is_full_width_range (ch : Z) :
  is_full_width ch = true <-> 0xFF01 <= ch <= 0xFF5E.
Proof. unfold is_full_width. rewrite andb_true_iff, !Z.leb_le. tauto. Qed.

Lemma fromCharCode_half_width (ch : Z) :
  0xFF01 <= ch <= 0xFF5E -> fromCharCode (ch - 0xFEE0) = ch - 0xFEE0.
Proof. intros Hch. unfold fromCharCode. apply Z.mod_small. lia. Qed.

(** C10.  [replaceFullWidthCharactersWithHalfWidth] keeps the length of the
    string; at every position, a character in U+FF01..U+FF5E becomes the
    character 0xFEE0 below it, which lies in 0x21..0x7E, and any other
    character stays as it is; applying the function twice gives what
    applying it once gives. *)
Theorem replaceFullWidth_exact (s : jsstring) :
  length (replaceFullWidthCharactersWithHalfWidth s) = length s
  /\ (forall (i : nat) (ch : Z), s !! i = Some ch ->
        (0xFF01 <= ch <= 0xFF5E ->
           replaceFullWidthCharactersWithHalfWidth s !! i = Some (ch - 0xFEE0)
           /\ 0x21 <= ch - 0xFEE0 <= 0x7E)
        /\ (~ 0xFF01 <= ch <= 0xFF5E ->
           replaceFullWidthCharactersWithHalfWidth s !! i = Some ch))
  /\ replaceFullWidthCharactersWithHalfWidth
       (replaceFullWidthCharactersWithHalfWidth s)
     = replaceFullWidthCharactersWithHalfWidth s.
Proof.
  unfold replaceFullWidthCharactersWithHalfWidth. split; [|split].
  - apply length_map.
  - intros i ch Hi. rewrite lookup_map, Hi. simpl. split.
    + intros Hch. rewrite (proj2 (is_full_width_range ch) Hch).
      rewrite fromCharCode_half_width by exact Hch. split; [reflexivity | lia].
    + intros Hch. destruct (is_full_width ch) eqn:E; [|reflexivity].
      apply is_full_width_range in E. contradiction.
  - rewrite map_map. apply map_ext. intros ch.
    destruct (is_full_width ch) eqn:E; [|rewrite E; reflexivity].
    apply is_full_width_range in E.
    rewrite fromCharCode_half_width by exact E.
    destruct (is_full_width (ch - 0xFEE0)) eqn:E'; [|reflexivity].
    apply is_full_width_range in E'. lia.
Qed.

(** The full-width [A], then hiragana [a]: the first becomes [A], the
    second stays. *)
Lemma replaceFullWidth_exact_witness :
  replaceFullWidthCharactersWithHalfWidth [0xFF21; 0x3042] !! 0%nat = Some 0x41
  /\ replaceFullWidthCharactersWithHalfWidth [0xFF21; 0x3042] !! 1%nat = Some 0x3042.
Proof.
  pose proof (replaceFullWidth_exact [0xFF21; 0x3042]) as (_ & Hat & _).
  split.
  - apply (Hat 0%nat 0xFF21 eq_refl). lia.
  - apply (Hat 1%nat 0x3042 eq_refl). lia.
Defined.

(** ** validate *)

Lemma forallb_false_exists {A : Type} (f : A -> bool) (l : list A) :
  forallb f l = false <-> exists x, In x l /\ f x = false.
Proof.
  induction l as [|x l IH]; simpl.
  - split; [discriminate | intros (x & [] & _)].
  - rewrite andb_false_iff, IH. split.
    + intros [Hx | (y & Hy & Hf)]; [exists x | exists y]; auto.
    + intros (y & [<- | Hy] & Hf); [left | right; exists y]; auto.
Qed.

(** C5.  For a stored link that is a string, [validate()] returns true
    exactly when the link, trimmed, is not the empty string, which is when
    some character of the link is not white space; it returns false for
    [''] and ['   '], and true for ['http://x']. *)
Theorem validate_trimmed_link (w : Widget) (s : jsstring) :
  link (_data w) = Plain (PStr s) ->
  validate w = (Ret (negb (is_empty (trim s))), w)
  /\ (result validate w = Ret true <-> trim s <> [])
  /\ (result validate w = Ret true <->
      exists ch, In ch s /\ is_whitespace ch = false)
  /\ (s = js "" -> result validate w = Ret false)
  /\ (s = js "   " -> result validate w = Ret false)
  /\ (s = js "http://x" -> result validate w = Ret true).
Proof.
  intros Hlink.
  assert (Hv : validate w = (Ret (negb (is_empty (trim s))), w)).
  { unfold validate, bind, get_data, gets, ret. simpl. rewrite Hlink. reflexivity. }
  unfold result. rewrite Hv. simpl.
  assert (Hne : Ret (negb (is_empty (trim s))) = Ret true <-> trim s <> []).
  { destruct (trim s) eqn:E; simpl; split; congruence. }
  repeat split; try (intros ->; reflexivity); try apply Hne.
  - intros Ht. apply Hne in Ht. apply forallb_false_exists.
    destruct (forallb is_whitespace s) eqn:E; [|reflexivity].
    apply trim_empty in E. contradiction.
  - intros Hex. apply Hne. intros Ht. apply trim_empty in Ht.
    apply forallb_false_exists in Hex. congruence.
Qed.

(** The links [''], ['   '] and ['http://x']. *)
Lemma validate_trimmed_link_witness :
  result validate sample_widget = Ret false
  /\ result validate
       (with_data {| link := Plain (PStr (js "   ")); meta := PObj ∅ |} sample_widget)
     = Ret false
  /\ result validate
       (with_data {| link := Plain (PStr (js "http://x")); meta := PObj ∅ |}
          sample_widget)
     = Ret true.
Proof.
  split; [|split].
  - refine (proj1 (proj2 (proj2 (proj2
      (validate_trimmed_link sample_widget (js "") _)))) eq_refl).
    vm_compute. reflexivity.
  - refine (proj1 (proj2 (proj2 (proj2 (proj2
      (validate_trimmed_link _ (js "   ") _))))) eq_refl).
    reflexivity.
  - refine (proj2 (proj2 (proj2 (proj2 (proj2
      (validate_trimmed_link _ (js "http://x") _))))) eq_refl).
    reflexivity.
Defined.

(** ** The data setter *)

Lemma vtruthy_not_empty (v : value) : vtruthy v = true -> v <> Plain (PStr []).
Proof. intros Hv ->. discriminate. Qed.

(** C9.  An assignment through the setter whose [link] is absent or falsy
    leaves the stored link as it was, and likewise for [meta]; hence a
    stored link other than [''] is never replaced by ['']. *)
Theorem set_data_keeps (d : Assigned) (w : Widget) :
  (vtruthy (a_link d) = false ->
     link (_data (after (set_data d) w)) = link (_data w))
  /\ (truthy (a_meta d) = false ->
     meta (_data (after (set_data d) w)) = meta (_data w))
  /\ (forall props : gmap string plain,
     props !! "link"%string = None ->
     link (_data (after (assign_data (PObj props)) w)) = link (_data w))
  /\ (forall props : gmap string plain,
     props !! "meta"%string = None ->
     meta (_data (after (assign_data (PObj props)) w)) = meta (_data w))
  /\ (link (_data w) <> Plain (PStr []) ->
     link (_data (after (set_data d) w)) <> Plain (PStr [])).
Proof.
  unfold after, assign_data, set_data, bind, lift, modify; simpl.
  unfold vor_else, or_else. repeat split.
  - intros ->. reflexivity.
  - intros ->. reflexivity.
  - intros props ->. reflexivity.
  - intros props ->. reflexivity.
  - intros Hold. destruct (vtruthy (a_link d)) eqn:E; [|exact Hold].
    apply vtruthy_not_empty, E.
Qed.

(** On the block saved with ['http://shop/old']: assigning [{ link: '' }]
    keeps the link, and so does assigning [{}]. *)
Lemma set_data_keeps_witness :
  link (_data (after (set_data {| a_link := Plain (PStr []); a_meta := PUndefined |})
                 saved_widget))
  = link (_data saved_widget)
  /\ link (_data (after (assign_data (PObj ∅)) saved_widget))
     = link (_data saved_widget)
  /\ link (_data (after (set_data {| a_link := Plain (PStr []); a_meta := PUndefined |})
                    saved_widget))
     <> Plain (PStr []).
Proof.
  pose proof (set_data_keeps {| a_link := Plain (PStr []); a_meta := PUndefined |}
                saved_widget) as (Hl & _ & Ha & _ & Hne).
  split; [|split].
  - apply Hl. reflexivity.
  - apply Ha. reflexivity.
  - apply Hne. vm_compute. discriminate.
Defined.

(** ** Fetching *)

Ltac run_methods :=
  unfold after, result, fetch_cycle, fetchLinkData_settled, onProgressHidden,
    onFetch, fetchLinkData, startFetching, fetchingFailed, applyErrorStyle,
    removeErrorStyle, showProgress, hideProgress, inputHolder_remove,
    ajax_get, console_error, t, assign_data, set_data, get_data,
    update_view, try_catch, bind, lift, gets, modify, ret, throw;
  simpl.

Section Fetching.

Context {rt : Runtime}.

(** [fetchLinkData] on a widget whose input view exists: the progress bar
    is set loading, the setter runs, then the request is sent. *)
Lemma fetchLinkData_run (w : Widget) (v : InputView) (url : plain) :
  inputView w = Some v ->
  fetchLinkData url w =
  (Ret tt,
   with_ajax (ajax w ++ [request_of w url])
     (with_data {| link := vor_else (Plain url) (link (_data w));
                   meta := meta (_data w) |}
        (with_inputView (Some (with_progress true (progress_loaded v) v)) w))).
Proof. intros Hv. run_methods. rewrite Hv. reflexivity. Qed.

(** C2.  When the status code is 400 or more, [onFetch] leaves the stored
    data as it is and shows the notification of the link-data error once;
    for a whole fetch on a rendered widget, the metadata stays, the link is
    the one set before the request, one notification is added, and no
    preview is shown. *)
Theorem onFetch_error_status (w : Widget) (response : plain) (code : Z) :
  400 <= code ->
  _data (after (onFetch response code) w) = _data w
  /\ notifier (after (onFetch response code) w) = notifier w ++ [link_data_error w]
  /\ (forall url : plain,
      is_Some (inputView w) ->
      let w' := after (fetch_cycle url (Resolved response code)) w in
      meta (_data w') = meta (_data w)
      /\ link (_data w') = vor_else (Plain url) (link (_data w))
      /\ notifier w' = notifier w ++ [link_data_error w]
      /\ preview w' = preview w
      /\ container w' = container w).
Proof.
  intros Hcode. apply Z.leb_le in Hcode. split; [|split].
  - run_methods. rewrite Hcode. simpl. destruct (inputView w); reflexivity.
  - run_methods. rewrite Hcode. simpl. destruct (inputView w); reflexivity.
  - intros url [v Hv]. run_methods. rewrite Hv. simpl. rewrite Hcode. simpl.
    repeat split; reflexivity.
Qed.


(** C8, amended.  On a rendered widget, [fetchLinkData(url)] runs the
    setter before it sends the request; the metadata stays as it was; the
    link becomes [url] when [url] is truthy (any non-empty string), and
    stays as it was when [url] is falsy (the empty string). *)
Theorem fetchLinkData_sets_link (w : Widget) (url : plain) :
  is_Some (inputView w) ->
  let w1 :=
    after (showProgress;;
           set_data {| a_link := Plain url; a_meta := PUndefined |}) w in
  fetchLinkData url w = ajax_get (request_of w url) w1
  /\ ajax w1 = ajax w
  /\ meta (_data w1) = meta (_data w)
  /\ (truthy url = true -> link (_data w1) = Plain url)
  /\ (truthy url = false -> link (_data w1) = link (_data w)).
Proof.
  intros [v Hv]. run_methods. rewrite Hv. simpl. unfold vor_else. simpl.
  repeat split; try reflexivity; intros ->; reflexivity.
Qed.

(** The request that [fetchLinkData] sends on a rendered widget: one call
    of [ajax.get], to [config.endpoint], with the query parameter [url],
    and with [this.headers], which is [undefined], as its headers. *)
Lemma fetchLinkData_request (w : Widget) (url : plain) :
  is_Some (inputView w) ->
  ajax (after (fetchLinkData url) w) =
  ajax w ++ [{| req_url := endpoint (config w); req_headers := PUndefined;
                req_data_url := url |}].
Proof.
  intros [v Hv]. unfold after. rewrite (fetchLinkData_run w v url Hv). reflexivity.
Qed.

(** A body that is [null] or [undefined], with a status below 400:
    [onFetch] throws on [response.link]; [fetchLinkData] catches the
    exception and reports the failure of the request. *)
Lemma fetch_nullish_body (w : Widget) (url body : plain) (code : Z) :
  code < 400 ->
  body = PNull \/ body = PUndefined ->
  is_Some (inputView w) ->
  result (onFetch body code) w = Throw TypeError
  /\ (let w' := after (fetch_cycle url (Resolved body code)) w in
      notifier w' = notifier w ++ [fetch_error w]
      /\ meta (_data w') = meta (_data w)
      /\ preview w' = preview w
      /\ container w' = container w).
Proof.
  intros Hcode Hbody [v Hv]. apply Z.leb_gt in Hcode.
  run_methods. rewrite Hv, Hcode. simpl.
  destruct Hbody as [-> | ->]; simpl; repeat split; reflexivity.
Qed.

(** A falsy body that is a primitive value ([''], [0], [NaN], [false]),
    with a status below 400: the format error is reported, the metadata
    stays and no preview is shown.  For [''] the stored link becomes the
    method [String.prototype.link]. *)
Lemma fetch_falsy_primitive_body (w : Widget) (url body : plain) (code : Z) :
  code < 400 ->
  truthy body = false ->
  body <> PNull -> body <> PUndefined ->
  is_Some (inputView w) ->
  let w' := after (fetch_cycle url (Resolved body code)) w in
  notifier w' = notifier w ++ [format_error w]
  /\ meta (_data w') = meta (_data w)
  /\ preview w' = preview w
  /\ container w' = container w
  /\ link (_data w') =
     match body with
     | PStr _ => StringPrototypeLink
     | _ => vor_else (Plain url) (link (_data w))
     end.
Proof.
  intros Hcode Hbody Hnull Hundef [v Hv]. apply Z.leb_gt in Hcode.
  run_methods. rewrite Hv, Hcode. simpl.
  destruct body; try discriminate; try contradiction; simpl in *;
    rewrite ?Hbody; simpl; unfold or_else, vor_else; simpl;
    rewrite ?Hbody; simpl;
    repeat split; try reflexivity;
    destruct (vtruthy _); reflexivity.
Qed.

End Fetching.

(** A new block, the first product chosen, and the server answering 404. *)
Lemma onFetch_error_status_witness :
  _data (after (onFetch (PObj ∅) 404) sample_widget) = _data sample_widget
  /\ notifier (after (onFetch (PObj ∅) 404) sample_widget)
     = [link_data_error sample_widget]
  /\ meta (_data (after (@fetch_cycle sample_runtime (PStr (entry_url apple))
                           (Resolved (PObj ∅) 404)) sample_widget))
     = PObj ∅.
Proof.
  pose proof (@onFetch_error_status sample_runtime sample_widget (PObj ∅) 404
                ltac:(lia)) as (Hd & Hn & Hc).
  split; [exact Hd | split; [exact Hn|]].
  refine (proj1 (Hc (PStr (entry_url apple)) _)).
  vm_compute. eauto.
Defined.

(** The block saved with ['http://shop/old'], then a fetch for the URL
    ['http://shop/apple']: the link is replaced, the metadata is not. *)
Lemma fetchLinkData_sets_link_witness :
  link (_data (after (showProgress;;
                      set_data {| a_link := Plain (PStr (entry_url apple));
                                  a_meta := PUndefined |}) saved_widget))
  = Plain (PStr (entry_url apple))
  /\ meta (_data (after (showProgress;;
                         set_data {| a_link := Plain (PStr (entry_url apple));
                                     a_meta := PUndefined |}) saved_widget))
     = meta (_data saved_widget).
Proof.
  assert (Hv : is_Some (inputView saved_widget)) by (vm_compute; eauto).
  pose proof (fetchLinkData_sets_link saved_widget (PStr (entry_url apple)) Hv)
    as (_ & _ & Hm & Hl & _).
  split; [apply Hl; reflexivity | exact Hm].
Defined.

(** C8 as stated fails.  The block saved with ['http://shop/old'] shows
    its input view, and its catalog has an entry whose URL is ['']; a click
    on that entry starts a fetch for [''], which leaves ['http://shop/old'] as
    the link, not ['']. *)
Lemma fetchLinkData_empty_url_keeps_link :
  (products <$> inputView saved_widget) = Some [entry_li apple; entry_li unlisted]
  /\ link (_data saved_widget) = Plain (PStr (js "http://shop/old"))
  /\ url (after (li_click (entry_li unlisted)) saved_widget) = PStr (js "")
  /\ ajax (after (li_click (entry_li unlisted)) saved_widget)
     = [request_of saved_widget (PStr (js ""))]
  /\ link (_data (after (li_click (entry_li unlisted)) saved_widget))
     = Plain (PStr (js "http://shop/old"))
  /\ link (_data (after (fetchLinkData (PStr (js ""))) saved_widget))
     <> Plain (PStr (js "")).
Proof.
  split; [vm_compute; reflexivity|].
  split; [vm_compute; reflexivity|].
  split; [vm_compute; reflexivity|].
  split; [vm_compute; reflexivity|].
  split; [vm_compute; reflexivity|].
  vm_compute. discriminate.
Qed.

(** C3 fails on the code.  A new block, the first product chosen, and the
    server answering 200 with the body [null]: [onFetch] throws, and the
    one notification shown is that of a failed request, not that of a wrong
    response format. *)
Theorem fetch_null_body_reports_fetch_error :
  result (onFetch PNull 200) sample_widget = Throw TypeError
  /\ notifier (after (@fetch_cycle sample_runtime (PStr (entry_url apple))
                        (Resolved PNull 200)) sample_widget)
     = [fetch_error sample_widget]
  /\ fetch_error sample_widget <> format_error sample_widget.
Proof.
  split; [vm_compute; reflexivity|].
  split; [vm_compute; reflexivity|].
  vm_compute. discriminate.
Qed.

(** C4 fails on the code.  The widget is configured with the headers
    [{ 'X-Token': 'secret' }], and the constructor keeps them in
    [config.headers]; the request of a fetch carries [undefined] as its
    headers. *)
Theorem fetchLinkData_drops_headers :
  headers (config sample_widget) = sample_headers
  /\ ajax (after (fetchLinkData (PStr (entry_url apple))) sample_widget)
     = [{| req_url := PStr (js "/fetch");
           req_headers := PUndefined;
           req_data_url := PStr (entry_url apple) |}].
Proof. split; vm_compute; reflexivity. Qed.

(** *** One request per fetch *)

Section Requests.

Context {rt : Runtime}.

Lemma showLinkPreview_ajax (m : plain) (w : Widget) :
  ajax (after (showLinkPreview m) w) = ajax w.
Proof.
  unfold after, showLinkPreview, container_appendChild, node_exists,
    update_preview.
  unfold bind, lift, gets, get_data, ret, throw, console_error, modify.
  repeat (case_match; simpl in *; simplify_eq; try reflexivity).
Qed.

(** Whatever the reply, a fetch on a rendered widget calls [ajax.get]
    once. *)
Lemma fetch_cycle_single_request (w : Widget) (url : plain) (r : Reply) :
  is_Some (inputView w) ->
  ajax (after (fetch_cycle url r) w) = ajax w ++ [request_of w url].
Proof.
  intros [v Hv]. unfold after, fetch_cycle, bind at 1.
  rewrite (fetchLinkData_run w v url Hv).
  set (w1 := with_ajax _ _).
  assert (H1 : ajax w1 = ajax w ++ [request_of w url]) by reflexivity.
  assert (Hv1 : is_Some (inputView w1)) by (simpl; eauto).
  rewrite <- H1. clearbody w1. clear Hv H1 v.
  destruct Hv1 as [v Hv].
  unfold bind, fetchLinkData_settled, try_catch.
  destruct r as [body code|].
  - unfold onFetch. destruct (400 <=? code).
    + run_methods. rewrite Hv. simpl. reflexivity.
    + unfold bind, lift. destruct (member_link body) as [l|e] eqn:El.
      * unfold get_data, gets, set_data, modify. simpl.
        destruct (truthy body) eqn:Eb; simpl.
        -- unfold hideProgress. simpl. rewrite Hv. simpl.
           unfold onProgressHidden, bind, inputHolder_remove. simpl.
           fold (after (showLinkPreview body)
             (with_container (removeChild InputHolderNode <$> container w1)
                (with_inputView (Some (with_progress false true v))
                  (with_data
                     {| link := vor_else (vor_else l (link (_data w1)))
                                  (link (_data w1));
                        meta := or_else body (meta (_data w1)) |} w1)))).
           rewrite showLinkPreview_ajax. reflexivity.
        -- run_methods. rewrite Hv. reflexivity.
      * run_methods. rewrite Hv. reflexivity.
  - run_methods. rewrite Hv. reflexivity.
Qed.

End Requests.

(** ** The constructor *)

(** The configuration that the constructor keeps: each option of the
    host's configuration if truthy, else [''] for [endpoint] and
    [language], and the empty object [{}] for [headers], [acList] and
    [placeHolder]. *)
Lemma constructor_config (data : plain) (props : gmap string plain)
    (a : Api) (ro : bool) (w : Widget) :
  constructor data (PObj props) a ro = Ret w ->
  config w =
  {| endpoint := or_else (default PUndefined (props !! "endpoint"%string)) (PStr []);
     headers := or_else (default PUndefined (props !! "headers"%string)) (PObj ∅);
     acList := or_else (default PUndefined (props !! "acList"%string)) (PObj ∅);
     placeholder := or_else (default PUndefined (props !! "placeHolder"%string)) (PObj ∅);
     language := or_else (default PUndefined (props !! "language"%string)) (PStr []) |}.
Proof.
  unfold constructor. simpl.
  destruct (assign_data data _) as [[u|err] w'] eqn:E; [|discriminate].
  intros [= <-]. revert E. run_methods.
  destruct (member_link data); simpl; [|discriminate].
  destruct (member data "meta"); simpl; [|discriminate].
  intros [= _ <-]. reflexivity.
Qed.

(** C7 fails on the code.  With the configuration [{}] the constructor
    keeps [''] for [endpoint] and [language] and [{}] for [headers], and
    also [{}] for [acList] and [placeholder]: not an empty list, not an
    empty string.  [render()] then throws, at [this.config.acList.map]. *)
Theorem constructor_defaults_are_objects :
  exists w : Widget,
    constructor (PObj ∅) (PObj ∅) sample_api false = Ret w
    /\ config w =
       {| endpoint := PStr []; headers := PObj ∅; acList := PObj ∅;
          placeholder := PObj ∅; language := PStr [] |}
    /\ acList (config w) <> PArr []
    /\ placeholder (config w) <> PStr []
    /\ result (@render sample_runtime) w = Throw TypeError.
Proof.
  eexists. split; [vm_compute; reflexivity|].
  split; [reflexivity|]. split; [discriminate|]. split; [discriminate|].
  vm_compute. reflexivity.
Qed.

(** ** Filtering the product list *)

Lemma make_li_entry (e : CatalogEntry) : make_li (entry_object e) = Ret (entry_li e).
Proof. reflexivity. Qed.

Lemma entry_title_member (e : CatalogEntry) :
  member (entry_object e) "title" = Ret (PStr (entry_title e)).
Proof. reflexivity. Qed.

Lemma with_inputView_same (w : Widget) (v : InputView) :
  inputView w = Some v ->
  with_inputView (Some (with_products (products v) v)) w = w.
Proof. destruct w, v. simpl. intros ->. reflexivity. Qed.

Lemma with_elsewhere_same (w : Widget) (o : OtherList) :
  other_list (elsewhere w) = Some o ->
  with_elsewhere
    {| other_list := Some {| list_precedes := list_precedes o;
                             list_items := list_items o |};
       other_input := other_input (elsewhere w) |} w = w.
Proof. destruct w as [? ? ? ? ? ? ? ? ? ? ? ? [? ?]], o. simpl. intros ->. reflexivity. Qed.

(** Writing the children of a list changes nothing to what
    [document.getElementById] finds. *)
Lemma getElementById_productsList_products (w : Widget) (v v' : InputView) :
  inputView w = Some v ->
  getElementById_productsList (with_inputView (Some v') w)
  = getElementById_productsList w.
Proof.
  unfold getElementById_productsList, own_list_in_document. simpl.
  intros ->. reflexivity.
Qed.

Lemma getElementById_productsList_items (w : Widget) (o : OtherList)
    (items : list Li) :
  other_list (elsewhere w) = Some o ->
  getElementById_productsList
    (with_elsewhere
       {| other_list := Some {| list_precedes := list_precedes o;
                                list_items := items |};
          other_input := other_input (elsewhere w) |} w)
  = getElementById_productsList w.
Proof.
  unfold getElementById_productsList, own_list_in_document. simpl.
  intros ->. reflexivity.
Qed.

Lemma found_own_view (w : Widget) :
  getElementById_productsList w = Own -> is_Some (inputView w).
Proof.
  unfold getElementById_productsList, first_with_id, own_list_in_document.
  destruct (inputView w); [eauto|].
  rewrite andb_false_r.
  destruct (list_precedes <$> other_list (elsewhere w)) as [[|]|]; discriminate.
Qed.

Lemma found_other_list (w : Widget) :
  getElementById_productsList w = Other -> is_Some (other_list (elsewhere w)).
Proof.
  unfold getElementById_productsList, first_with_id.
  destruct (other_list (elsewhere w)); [eauto|]. simpl.
  destruct (own_list_in_document w); discriminate.
Qed.

(** [makeProductsList] appends one [li] per entry, in the order of the
    catalog, to the list that [document.getElementById] finds: the one of
    the widget, or the one elsewhere. *)
Lemma appendProducts_own (es : list CatalogEntry) :
  forall (w : Widget) (v : InputView),
  getElementById_productsList w = Own ->
  inputView w = Some v ->
  appendProducts (map entry_object es) w =
  (Ret tt, with_inputView (Some (with_products (products v ++ map entry_li es) v)) w).
Proof.
  induction es as [|e es IH]; intros w v Hfound Hv; simpl.
  - rewrite app_nil_r, with_inputView_same by exact Hv. reflexivity.
  - unfold bind, lift. rewrite make_li_entry.
    unfold productsList_appendChild, update_view. rewrite Hfound, Hv.
    erewrite IH; [| |reflexivity].
    + simpl. rewrite <- app_assoc. reflexivity.
    + rewrite (getElementById_productsList_products w v) by exact Hv. exact Hfound.
Qed.

Lemma appendProducts_other (es : list CatalogEntry) :
  forall (w : Widget) (o : OtherList),
  getElementById_productsList w = Other ->
  other_list (elsewhere w) = Some o ->
  appendProducts (map entry_object es) w =
  (Ret tt,
   with_elsewhere
     {| other_list := Some {| list_precedes := list_precedes o;
                              list_items := list_items o ++ map entry_li es |};
        other_input := other_input (elsewhere w) |} w).
Proof.
  induction es as [|e es IH]; intros w o Hfound Ho; simpl.
  - rewrite app_nil_r, with_elsewhere_same by exact Ho. reflexivity.
  - unfold bind, lift. rewrite make_li_entry.
    unfold productsList_appendChild, update_other_list. rewrite Hfound, Ho.
    erewrite IH; [| |reflexivity].
    + simpl. rewrite <- app_assoc. reflexivity.
    + rewrite (getElementById_productsList_items w o) by exact Ho. exact Hfound.
Qed.

Lemma appendProducts_missing (es : list CatalogEntry) (w : Widget) :
  getElementById_productsList w = Missing ->
  appendProducts (map entry_object es) w =
  (match es with [] => Ret tt | _ :: _ => Throw TypeError end, w).
Proof.
  intros Hfound. destruct es as [|e es]; [reflexivity|].
  cbn [map appendProducts]. unfold bind, lift. rewrite make_li_entry.
  unfold productsList_appendChild. rewrite Hfound. reflexivity.
Qed.

(** The code's replacement of full-width characters is the
    specification's. *)
Lemma replaceFullWidth_half_width (s : jsstring) :
  replaceFullWidthCharactersWithHalfWidth s = map half_width s.
Proof.
  unfold replaceFullWidthCharactersWithHalfWidth. apply map_ext. intros ch.
  unfold half_width. destruct (is_full_width ch) eqn:E.
  - apply is_full_width_range in E.
    rewrite bool_decide_eq_true_2 by exact E.
    apply fromCharCode_half_width, E.
  - rewrite bool_decide_eq_false_2; [reflexivity|].
    intros Hch. apply is_full_width_range in Hch. congruence.
Qed.

Section Filtering.

Context {rt : Runtime}.

Lemma normalized_folded (s : jsstring) : normalized s = folded s.
Proof. apply replaceFullWidth_half_width. Qed.

(** The test of the code is the containment of the specification. *)
Lemma matches_contains (filterText : jsstring) (e : CatalogEntry) :
  matches filterText e = true <->
  contains (folded (entry_title e)) (folded filterText).
Proof.
  unfold matches, contains. rewrite !normalized_folded. apply includes_substring.
Qed.

(** [acList.filter] keeps the entries that pass [matches]. *)
Lemma filter_elems_entries (text : jsstring) (es : list CatalogEntry) :
  filter_elems
    (fun product =>
       title <~ member product "title";;
       lowered <~ call_toLowerCase title;;
       Ret (includes (replaceFullWidthCharactersWithHalfWidth lowered) text))
    (map entry_object es)
  = Ret (map entry_object
           (List.filter
              (fun e => includes (normalized (entry_title e)) text) es)).
Proof.
  induction es as [|e es IH]; [reflexivity|].
  cbn [map filter_elems List.filter]. rewrite entry_title_member. cbn [obind].
  rewrite IH. cbn [obind call_toLowerCase]. fold (normalized (entry_title e)).
  destruct (includes _ text); reflexivity.
Qed.

Lemma filter_matches_empty (text : jsstring) (entries : list CatalogEntry) :
  text = [] ->
  List.filter (fun e => includes (normalized (entry_title e)) text) entries = entries.
Proof.
  intros ->. apply forallb_filter_id, forallb_forall. intros e _. apply includes_empty.
Qed.

(** On a catalog of entries, [filterProductsList] hands the entries that
    pass [matches] to [makeProductsList], in both its branches. *)
Lemma filterProductsList_appends (w : Widget) (entries : list CatalogEntry)
    (filterText : jsstring) :
  acList (config w) = PArr (map entry_object entries) ->
  filterProductsList filterText w =
  appendProducts (map entry_object (List.filter (matches filterText) entries)) w.
Proof.
  intros Hcat. unfold filterProductsList, bind, gets, lift. rewrite Hcat.
  fold (normalized filterText).
  destruct (is_empty (normalized filterText)) eqn:E.
  - unfold makeProductsList, bind, lift. simpl.
    apply is_empty_true in E. unfold matches.
    rewrite (filter_matches_empty _ entries E). reflexivity.
  - simpl. rewrite filter_elems_entries.
    unfold makeProductsList, bind, lift. simpl. reflexivity.
Qed.

(** C1.  With a catalog of entries, [filterProductsList(filterText)]
    selects the entries whose title, lower-cased and with its full-width
    characters made half-width, contains the filter text, treated the same
    way, and those only, in the order of the catalog; it appends one [li]
    for each to the list that [document.getElementById] finds, the one of
    the widget or the first one elsewhere.  With the empty filter text it
    selects the whole catalog.  Where lower-casing a text and making it
    half-width give the same in either order, the selection is also the one
    by the texts made half-width first and lower-cased next. *)
Theorem filterProductsList_selects (w : Widget) (entries : list CatalogEntry)
    (filterText : jsstring) :
  acList (config w) = PArr (map entry_object entries) ->
  exists (keep : CatalogEntry -> bool) (selected : list CatalogEntry),
    (forall e : CatalogEntry,
       keep e = true <-> contains (folded (entry_title e)) (folded filterText))
    /\ selected = List.filter keep entries
    /\ (forall v : InputView,
        getElementById_productsList w = Own ->
        inputView w = Some v ->
        filterProductsList filterText w =
        (Ret tt,
         with_inputView
           (Some (with_products (products v ++ map entry_li selected) v)) w))
    /\ (forall o : OtherList,
        getElementById_productsList w = Other ->
        other_list (elsewhere w) = Some o ->
        filterProductsList filterText w =
        (Ret tt,
         with_elsewhere
           {| other_list :=
                Some {| list_precedes := list_precedes o;
                        list_items := list_items o ++ map entry_li selected |};
              other_input := other_input (elsewhere w) |} w))
    /\ (filterText = [] -> toLowerCase [] = [] -> selected = entries)
    /\ ((forall s : jsstring, half_width_first s = folded s) ->
        forall e : CatalogEntry,
          keep e = true <->
          contains (half_width_first (entry_title e)) (half_width_first filterText)).
Proof.
  intros Hcat.
  exists (matches filterText), (List.filter (matches filterText) entries).
  split_and!; [| | | | |intros Hsame e; rewrite !Hsame; apply matches_contains].
  - apply matches_contains.
  - reflexivity.
  - intros v Hfound Hv. rewrite (filterProductsList_appends w entries) by exact Hcat.
    apply appendProducts_own; assumption.
  - intros o Hfound Ho. rewrite (filterProductsList_appends w entries) by exact Hcat.
    apply appendProducts_other; assumption.
  - intros -> Hlow. unfold matches. apply filter_matches_empty.
    unfold normalized. rewrite Hlow. reflexivity.
Qed.

End Filtering.

Ltac decide_tests :=
  repeat match goal with
         | |- context [bool_decide ?P] =>
             first [rewrite (bool_decide_eq_true_2 P) by lia
                   | rewrite (bool_decide_eq_false_2 P) by lia]
         | |- context [?a <=? ?b] =>
             first [rewrite (proj2 (Z.leb_le a b)) by lia
                   | rewrite (proj2 (Z.leb_gt a b)) by lia]
         | |- context [?a =? ?b] =>
             first [rewrite (proj2 (Z.eqb_eq a b)) by lia
                   | rewrite (proj2 (Z.eqb_neq a b)) by lia]
         end.

Lemma lower_unit_half_width (c : Z) :
  lower_unit (half_width c) = half_width (lower_unit c).
Proof.
  unfold half_width, lower_unit.
  assert (Hc : c < 0x41 \/ 0x41 <= c <= 0x5A \/ 0x5A < c < 0xC0
               \/ 0xC0 <= c < 0xD7 \/ c = 0xD7 \/ 0xD7 < c <= 0xDE
               \/ 0xDE < c < 0xFF01 \/ 0xFF01 <= c < 0xFF21
               \/ 0xFF21 <= c <= 0xFF3A \/ 0xFF3A < c <= 0xFF5E \/ 0xFF5E < c)
    by lia.
  destruct Hc as [H|[H|[H|[H|[H|[H|[H|[H|[H|[H|H]]]]]]]]]];
    decide_tests; cbn [andb orb negb]; decide_tests; lia.
Qed.

(** The sample runtime lower-cases and makes half-width in either
    order. *)
Lemma sample_runtime_either_order (s : jsstring) :
  @half_width_first sample_runtime s = @folded sample_runtime s.
Proof.
  unfold half_width_first, folded. simpl. rewrite !map_map.
  apply map_ext. intros c. apply lower_unit_half_width.
Qed.

Lemma filter_two {A : Type} (keep : A -> bool) (x y : A) :
  keep x = false -> keep y = true -> List.filter keep [x; y] = [y].
Proof. intros Hx Hy. simpl. rewrite Hx, Hy. reflexivity. Qed.

(** The sample catalog and the filter text [an], in ASCII: the first title,
    [Apple Pie], does not contain it; the second, [BANANA] in full-width
    capitals, does once it is lower-cased and made half-width.  The second
    entry is appended to the two that the list of the widget holds.  With
    the full-width filter text [PIE] it is the first entry, whose title
    is in ASCII. *)
Lemma filterProductsList_selects_witness :
  products <$> inputView
    (after (@filterProductsList sample_runtime (js "an")) sample_widget)
  = Some [entry_li apple; entry_li banana; entry_li banana]
  /\ products <$> inputView
       (after (@filterProductsList sample_runtime [0xFF30; 0xFF29; 0xFF25])
          sample_widget)
     = Some [entry_li apple; entry_li banana; entry_li apple].
Proof.
  split.
  - destruct (@filterProductsList_selects sample_runtime sample_widget
                [apple; banana] (js "an") ltac:(vm_compute; reflexivity))
      as (keep & selected & Hkeep & -> & Hown & _).
    unfold after.
    rewrite (Hown (fresh_view (config sample_widget) [entry_li apple; entry_li banana])
               ltac:(vm_compute; reflexivity) ltac:(vm_compute; reflexivity)).
    assert (Ha : keep apple = false).
    { destruct (keep apple) eqn:E; [|reflexivity].
      apply Hkeep, includes_substring in E. vm_compute in E. discriminate. }
    assert (Hb : keep banana = true).
    { apply Hkeep, includes_substring. vm_compute. reflexivity. }
    rewrite (filter_two keep apple banana Ha Hb). vm_compute. reflexivity.
  - destruct (@filterProductsList_selects sample_runtime sample_widget
                [apple; banana] [0xFF30; 0xFF29; 0xFF25]
                ltac:(vm_compute; reflexivity))
      as (keep & selected & Hkeep & -> & Hown & _).
    unfold after.
    rewrite (Hown (fresh_view (config sample_widget) [entry_li apple; entry_li banana])
               ltac:(vm_compute; reflexivity) ltac:(vm_compute; reflexivity)).
    assert (Ha : keep apple = true).
    { apply Hkeep, includes_substring. vm_compute. reflexivity. }
    assert (Hb : keep banana = false).
    { destruct (keep banana) eqn:E; [|reflexivity].
      apply Hkeep, includes_substring in E. vm_compute in E. discriminate. }
    simpl. rewrite Ha, Hb. vm_compute. reflexivity.
Defined.

(** ** The price line of the preview *)

Lemma is_string_eq (p : plain) (s : jsstring) :
  is_string p s = true <-> p = PStr s.
Proof.
  destruct p; simpl; try (split; [discriminate | intros [=]]).
  rewrite jsstring_eqb_eq. split; [intros -> | intros [= ->]]; reflexivity.
Qed.

Lemma priceText_string (lang : plain) (s : jsstring) :
  priceText lang (PStr s) =
  Ret (PStr (if is_string lang (js "ja-JP") || negb (has_yen s)
             then s else js "JPY " ++ remove_first_yen s)).
Proof.
  unfold priceText, test_yen. cbn [stringifiable prints_yen obind].
  destruct (is_string lang (js "ja-JP")), (has_yen s); reflexivity.
Qed.

(** [remove_first_yen] takes out the first yen glyph, and that one only. *)
Lemma remove_first_yen_split (pre post : jsstring) :
  has_yen pre = false ->
  has_yen (pre ++ yen :: post) = true
  /\ remove_first_yen (pre ++ yen :: post) = pre ++ post.
Proof.
  unfold has_yen. induction pre as [|c pre IH];
    cbn [app existsb remove_first_yen].
  - intros _. rewrite !Z.eqb_refl. split; reflexivity.
  - intros Hpre. apply orb_false_iff in Hpre as [Hc Hpre].
    destruct (IH Hpre) as [Hhas Hrem]. rewrite Hhas, Hrem, orb_true_r.
    rewrite Z.eqb_sym in Hc. rewrite Hc. split; reflexivity.
Qed.

Lemma without_yen_id (s : jsstring) : has_yen s = false -> without_yen s = s.
Proof.
  unfold has_yen, without_yen.
  induction s as [|c s IH]; cbn [existsb List.filter]; [reflexivity|].
  intros Hs. apply orb_false_iff in Hs as [Hc Hs].
  rewrite Z.eqb_sym in Hc. rewrite Hc. cbn [negb]. f_equal. exact (IH Hs).
Qed.

Lemma without_yen_app (s s' : jsstring) :
  without_yen (s ++ s') = without_yen s ++ without_yen s'.
Proof. unfold without_yen. apply List.filter_app. Qed.

(** The writes of values that convert to strings go through. *)
Lemma dom_write_ok (p : plain) : stringifiable p = true -> dom_write p = Ret p.
Proof. unfold dom_write. intros ->. reflexivity. Qed.

Lemma dom_write_value_ok (v : value) :
  vstringifiable v = true -> dom_write_value v = Ret v.
Proof. unfold dom_write_value. intros ->. reflexivity. Qed.

Lemma fields_convert_line (props : gmap string plain) :
  fields_convert line_keys (PObj props) = true ->
  dom_write (default PUndefined (props !! "image"%string))
  = Ret (default PUndefined (props !! "image"%string))
  /\ dom_write (default PUndefined (props !! "title"%string))
     = Ret (default PUndefined (props !! "title"%string))
  /\ dom_write (default PUndefined (props !! "description"%string))
     = Ret (default PUndefined (props !! "description"%string))
  /\ dom_write (default PUndefined (props !! "operating_days_of_week"%string))
     = Ret (default PUndefined (props !! "operating_days_of_week"%string)).
Proof.
  unfold fields_convert, line_keys. cbn [forallb member].
  rewrite !andb_true_iff. intros (H1 & H2 & H3 & H4 & _).
  split_and!; apply dom_write_ok; assumption.
Qed.

Lemma fields_convert_card (props : gmap string plain) :
  fields_convert card_keys (PObj props) = true ->
  dom_write (default PUndefined (props !! "image"%string))
  = Ret (default PUndefined (props !! "image"%string))
  /\ dom_write (default PUndefined (props !! "title"%string))
     = Ret (default PUndefined (props !! "title"%string))
  /\ dom_write (default PUndefined (props !! "description"%string))
     = Ret (default PUndefined (props !! "description"%string)).
Proof.
  unfold fields_convert, card_keys. cbn [forallb member].
  rewrite !andb_true_iff. intros (H1 & H2 & H3 & _).
  split_and!; apply dom_write_ok; assumption.
Qed.

Ltac run_preview :=
  unfold after, result, showLinkPreview, container_appendChild, node_exists,
    update_preview;
  unfold bind, lift, gets, get_data, ret, throw, console_error, modify.

Ltac crush_preview :=
  repeat (case_match; simpl in *; simplify_eq; try reflexivity).

Ltac bool_contra :=
  exfalso;
  repeat match goal with
         | H : truthy _ = _ |- _ => rewrite H in *; clear H
         end;
  simpl in *; rewrite ?orb_true_r in *; congruence.

Section Preview.

Context {rt : Runtime}.

Lemma showLinkPreview_price_line (w : Widget) (props : gmap string plain)
    (s : jsstring) :
  props !! "lowest_price_gross"%string = Some (PStr s) ->
  s <> [] ->
  is_Some (container w) ->
  is_Some (preview w) ->
  fields_convert line_keys (PObj props) = true ->
  vstringifiable (link (_data w)) = true ->
  price_line (after (showLinkPreview (PObj props)) w) =
  Some (PStr (if is_string (language (config w)) (js "ja-JP") || negb (has_yen s)
              then s else js "JPY " ++ remove_first_yen s)).
Proof.
  intros Hp Hs [c Hc] [p Hpv] Hfields Hlink.
  assert (Ht : negb (is_empty s) = true) by (destruct s; [contradiction|reflexivity]).
  destruct (fields_convert_line props Hfields) as (Hi & Hti & Hde & Hwe).
  apply dom_write_value_ok in Hlink.
  pose proof (priceText_string (language (config w)) s) as Hprice.
  remember (PStr (if is_string (language (config w)) (js "ja-JP")
                     || negb (has_yen s)
                  then s else js "JPY " ++ remove_first_yen s)) as text.
  assert (Htext : dom_write text = Ret text) by (subst text; reflexivity).
  run_preview. simpl. rewrite Hc, Hpv, Hp. simpl. rewrite Ht. simpl.
  crush_preview; unfold price_line; simpl; try congruence; bool_contra.
Qed.

(** An empty [lowest_price_gross]: no price line is written. *)
Lemma showLinkPreview_empty_price (w : Widget) (props : gmap string plain) :
  props !! "lowest_price_gross"%string = Some (PStr []) ->
  price_line (after (showLinkPreview (PObj props)) w) = price_line w.
Proof.
  intros Hp. run_preview. unfold price_line. simpl. rewrite Hp. simpl.
  crush_preview.
Qed.

(** C6, amended.  For metadata whose [lowest_price_gross] is a string,
    shown on a rendered widget, where the stored link and the values of
    [image], [title], [description] and [operating_days_of_week] convert to
    strings: when the price is the empty string no price line is written;
    otherwise the text of the price line is the price itself when
    [config.language] is ['ja-JP'] or the price has no yen glyph, and it is
    ['JPY '] followed by the price without its yen glyph when the language is
    another and the price has one yen glyph. *)
Theorem showLinkPreview_price (w : Widget) (props : gmap string plain)
    (s : jsstring) :
  props !! "lowest_price_gross"%string = Some (PStr s) ->
  is_Some (container w) ->
  is_Some (preview w) ->
  fields_convert line_keys (PObj props) = true ->
  vstringifiable (link (_data w)) = true ->
  let shown := price_line (after (showLinkPreview (PObj props)) w) in
  (s = [] -> shown = price_line w)
  /\ (s <> [] ->
      language (config w) = PStr (js "ja-JP") \/ has_yen s = false ->
      shown = Some (PStr s))
  /\ (forall pre post : jsstring,
      language (config w) <> PStr (js "ja-JP") ->
      s = pre ++ yen :: post ->
      has_yen pre = false ->
      has_yen post = false ->
      shown = Some (PStr (js "JPY " ++ pre ++ post))
      /\ pre ++ post = without_yen s).
Proof.
  intros Hp Hc Hpv Hfields Hlink shown. subst shown. split; [|split].
  - intros ->. apply showLinkPreview_empty_price, Hp.
  - intros Hs Hcase.
    rewrite (showLinkPreview_price_line w props s Hp Hs Hc Hpv Hfields Hlink).
    destruct Hcase as [Hja | Hno].
    + apply is_string_eq in Hja. rewrite Hja. reflexivity.
    + rewrite Hno, orb_true_r. reflexivity.
  - intros pre post Hlang -> Hpre Hpost.
    rewrite (showLinkPreview_price_line w props _ Hp) by
      (try assumption; destruct pre; discriminate).
    destruct (remove_first_yen_split pre post Hpre) as [Hhas Hrem].
    destruct (is_string (language (config w)) (js "ja-JP")) eqn:E.
    { apply is_string_eq in E. contradiction. }
    rewrite Hhas, Hrem. split; [reflexivity|].
    rewrite without_yen_app.
    rewrite (without_yen_id pre Hpre). f_equal.
    unfold without_yen at 1. cbn [List.filter]. rewrite Z.eqb_refl. cbn [negb].
    symmetry. apply without_yen_id, Hpost.
Qed.

End Preview.

(** The price ['500円'] on the sample widget, whose language is ['en-US']:
    the price line reads ['JPY 500']. *)
Lemma showLinkPreview_price_witness :
  price_line
    (after (@showLinkPreview sample_runtime
              (PObj (<["lowest_price_gross"%string := PStr (js "500" ++ [yen])]> ∅)))
       sample_widget)
  = Some (PStr (js "JPY 500")).
Proof.
  refine (proj1 (proj2 (proj2 (@showLinkPreview_price sample_runtime sample_widget
    (<["lowest_price_gross"%string := PStr (js "500" ++ [yen])]> ∅)
    (js "500" ++ [yen]) _ _ _ _ _)) (js "500") [] _ _ _ _)).
  - reflexivity.
  - vm_compute. eauto.
  - vm_compute. eauto.
  - vm_compute. reflexivity.
  - vm_compute. reflexivity.
  - vm_compute. discriminate.
  - reflexivity.
  - reflexivity.
  - reflexivity.
Defined.

(** C6 as stated fails.  The server answers a fetch on the sample widget
    with the price [''], a string without yen glyph: the preview is shown
    and has no price line, where the claim has a price line that reads
    ['']. *)
Lemma price_line_absent_for_empty_price :
  let w' :=
    after (@fetch_cycle sample_runtime (PStr (entry_url apple))
             (Resolved (PObj (<["lowest_price_gross"%string := PStr (js "")]> ∅)) 200))
      sample_widget in
  has_yen (js "") = false
  /\ container w' = Some [LinkContentNode]
  /\ price_line w' = None
  /\ price_line w' <> Some (PStr (js "")).
Proof.
  cbv zeta. split; [reflexivity|].
  split; [vm_compute; reflexivity|].
  split; [vm_compute; reflexivity|].
  vm_compute. discriminate.
Qed.

(** A price with two yen glyphs, ['1円2円'], under the language ['en-US']:
    [price.replace('円', '')] takes out the first one. *)
Lemma price_line_keeps_second_yen :
  let price := [0x31; yen; 0x32; yen] in
  let w' :=
    after (@fetch_cycle sample_runtime (PStr (entry_url apple))
             (Resolved (PObj (<["lowest_price_gross"%string := PStr price]> ∅)) 200))
      sample_widget in
  language (config sample_widget) = PStr (js "en-US")
  /\ price_line w' = Some (PStr (js "JPY 12" ++ [yen]))
  /\ without_yen price = js "12"
  /\ price_line w' <> Some (PStr (js "JPY " ++ without_yen price)).
Proof.
  cbv zeta. split; [vm_compute; reflexivity|].
  split; [vm_compute; reflexivity|].
  split; [vm_compute; reflexivity|].
  vm_compute. discriminate.
Qed.

(** * Further properties *)

(** ** What [showLinkPreview] leaves alone *)

Section PreviewFrame.

Context {rt : Runtime}.

Lemma showLinkPreview_data (m : plain) (w : Widget) :
  _data (after (showLinkPreview m) w) = _data w.
Proof. run_preview. crush_preview. Qed.

Lemma showLinkPreview_notifier (m : plain) (w : Widget) :
  notifier (after (showLinkPreview m) w) = notifier w.
Proof. run_preview. crush_preview. Qed.

Lemma showLinkPreview_inputView (m : plain) (w : Widget) :
  inputView (after (showLinkPreview m) w) = inputView w.
Proof. run_preview. crush_preview. Qed.

Lemma showLinkPreview_container (m : plain) (w : Widget) (c : list Child) :
  container w = Some c ->
  is_Some (preview w) ->
  container (after (showLinkPreview m) w) = Some (appendChild LinkContentNode c).
Proof.
  intros Hc [p Hp]. run_preview. rewrite Hc. simpl. rewrite Hp. simpl.
  crush_preview.
Qed.

Lemma fields_convert_member (keys : list string) (m : plain) (k : string) :
  fields_convert keys m = true ->
  In k keys ->
  exists x, member m k = Ret x /\ dom_write x = Ret x.
Proof.
  unfold fields_convert. rewrite forallb_forall. intros Hall Hk.
  specialize (Hall k Hk). destruct (member m k) as [x|]; [|discriminate].
  exists x. split; [reflexivity | apply dom_write_ok, Hall].
Qed.

Lemma showLinkPreview_href (m : plain) (w : Widget) :
  is_Some (container w) ->
  is_Some (preview w) ->
  fields_convert card_keys m = true ->
  vstringifiable (link (_data w)) = true ->
  href <$> preview (after (showLinkPreview m) w) = Some (Some (link (_data w))).
Proof.
  intros [c Hc] [p Hp] Hfields Hlink.
  destruct (fields_convert_member card_keys m "image" Hfields)
    as (image & Him & Hwi); [simpl; tauto|].
  destruct (fields_convert_member card_keys m "title" Hfields)
    as (title & Hti & Hwt); [simpl; tauto|].
  destruct (fields_convert_member card_keys m "description" Hfields)
    as (description & Hde & Hwd); [simpl; tauto|].
  apply dom_write_value_ok in Hlink. clear Hfields.
  run_preview. rewrite Hc. simpl. rewrite Hp, Him, Hti, Hde. simpl.
  crush_preview; try congruence;
    try (destruct m; simpl in *; congruence).
Qed.

End PreviewFrame.

(** ** How a fetch ends *)

Lemma vor_else_twice (l opt : value) :
  vor_else (vor_else l opt) opt = vor_else l opt.
Proof. unfold vor_else. destruct (vtruthy l) eqn:E; [rewrite E|]; try reflexivity.
  destruct (vtruthy opt); reflexivity. Qed.

Lemma member_link_truthy (body : plain) :
  truthy body = true -> exists l, member_link body = Ret l.
Proof. destruct body; simpl; try discriminate; eauto. Qed.

Section FetchEnds.

Context {rt : Runtime}.

(** X1.  On a rendered widget, a fetch that fails (rejected request, status
    of 400 or more, falsy body) returns normally and shows one notification,
    of style [error], with the message of the failure; the holder gets the
    error class, the select is removed, and the progress bar is still
    loading; the metadata, the container and the preview are as before. *)
Theorem fetch_cycle_failure (w : Widget) (v : InputView) (url : plain) (r : Reply) :
  inputView w = Some v ->
  fails r = true ->
  let w' := after (fetch_cycle url r) w in
  result (fetch_cycle url r) w = Ret tt
  /\ notifier w' =
     notifier w ++ [{| message := i18n_t (api w) (js (failure_key r));
                       style := js "error" |}]
  /\ inputView w' =
     Some (with_select_attached false
            (with_holder_error true (with_progress true (progress_loaded v) v)))
  /\ meta (_data w') = meta (_data w)
  /\ container w' = container w
  /\ preview w' = preview w
  /\ ajax w' = ajax w ++ [request_of w url].
Proof.
  intros Hv Hr. destruct r as [body code|]; simpl in Hr.
  - destruct (400 <=? code) eqn:Hcode; simpl in Hr.
    + run_methods. rewrite Hv. simpl. rewrite Hcode. simpl.
      split_and!; reflexivity.
    + apply negb_true_iff in Hr.
      run_methods. rewrite Hv. simpl. rewrite Hcode. simpl.
      destruct body; try discriminate; simpl in *; rewrite ?Hr; simpl;
        unfold or_else; simpl; rewrite ?Hr; split_and!; reflexivity.
  - run_methods. rewrite Hv. simpl. split_and!; reflexivity.
Qed.

(** A fetch that succeeds runs [showLinkPreview] last, on the widget in
    which the body is stored and the holder has left the container. *)
Lemma fetch_cycle_success_run (w : Widget) (v : InputView) (url body : plain)
    (code : Z) (l : value) :
  inputView w = Some v ->
  code < 400 ->
  truthy body = true ->
  member_link body = Ret l ->
  fetch_cycle url (Resolved body code) w =
  showLinkPreview body
    (with_container (removeChild InputHolderNode <$> container w)
       (with_inputView (Some (with_progress false true v))
          (with_data
             {| link := vor_else l (vor_else (Plain url) (link (_data w)));
                meta := body |}
             (with_ajax (ajax w ++ [request_of w url]) w)))).
Proof.
  intros Hv Hcode Hbody Hl. apply Z.leb_gt in Hcode.
  unfold fetch_cycle, bind at 1.
  rewrite (fetchLinkData_run w v url Hv).
  unfold bind at 1, fetchLinkData_settled, try_catch, onFetch.
  rewrite Hcode. unfold bind at 1, lift. rewrite Hl.
  unfold bind, get_data, gets, set_data, modify. simpl.
  rewrite Hbody. simpl. unfold hideProgress. simpl.
  unfold onProgressHidden, bind, inputHolder_remove. simpl.
  rewrite vor_else_twice. unfold or_else. rewrite Hbody. reflexivity.
Qed.

(** X2.  On a rendered widget, a fetch answered with a status below 400 and
    a truthy body shows no notification and stores the body as metadata;
    the link becomes [body.link] if truthy, else the URL of the fetch if
    truthy, else stays.  The progress bar is set loaded, the holder leaves
    the container and the preview enters it; when the image, the title and
    the description of the body and the stored link convert to strings, the
    anchor points to the stored link. *)
Theorem fetch_cycle_success (w : Widget) (v : InputView) (url body : plain)
    (code : Z) :
  inputView w = Some v ->
  code < 400 ->
  truthy body = true ->
  let w' := after (fetch_cycle url (Resolved body code)) w in
  exists l : value,
    member_link body = Ret l
    /\ _data w' =
       {| link := vor_else l (vor_else (Plain url) (link (_data w)));
          meta := body |}
    /\ notifier w' = notifier w
    /\ inputView w' = Some (with_progress false true v)
    /\ (forall c : list Child,
        container w = Some c ->
        is_Some (preview w) ->
        container w' =
          Some (appendChild LinkContentNode (removeChild InputHolderNode c))
        /\ (fields_convert card_keys body = true ->
            vstringifiable (link (_data w')) = true ->
            href <$> preview w' = Some (Some (link (_data w'))))).
Proof.
  intros Hv Hcode Hbody.
  destruct (member_link_truthy body Hbody) as [l Hl]. exists l.
  split; [exact Hl|].
  cbv zeta. unfold after.
  rewrite (fetch_cycle_success_run w v url body code l Hv Hcode Hbody Hl).
  match goal with
  | |- context [showLinkPreview body ?w2] =>
      change (snd (showLinkPreview body w2)) with (after (showLinkPreview body) w2);
      set (w2' := w2)
  end.
  rewrite showLinkPreview_data, showLinkPreview_notifier, showLinkPreview_inputView.
  split_and!; try reflexivity.
  intros c Hc Hp. split.
  - erewrite showLinkPreview_container; [reflexivity| subst w2'; simpl; rewrite Hc; reflexivity | exact Hp].
  - intros Hfields Hlink.
    rewrite showLinkPreview_href; [reflexivity | | exact Hp | exact Hfields | exact Hlink].
    subst w2'. simpl. rewrite Hc. simpl. eauto.
Qed.

End FetchEnds.

(** ** What [showLinkPreview] writes *)

Lemma priceText_returns (lang price : plain) :
  (forall elems, price <> PArr elems) ->
  stringifiable price = true ->
  exists text, priceText lang price = Ret text /\ dom_write text = Ret text.
Proof.
  intros Hprice Hconv. unfold priceText, test_yen. rewrite Hconv. cbn [obind].
  destruct (negb (is_string lang (js "ja-JP")));
    [|exists price; split; [reflexivity | apply dom_write_ok, Hconv]].
  destruct price; cbn [prints_yen];
    try (eexists; split; [reflexivity | apply dom_write_ok, Hconv]).
  - destruct (has_yen s); eexists; (split; [reflexivity|reflexivity]).
  - destruct (Hprice elems eq_refl).
Qed.

Section PreviewContent.

Context {rt : Runtime}.

(** X3.  On a rendered widget, [showLinkPreview] of an object whose
    [image], [title], [description] and [operating_days_of_week] convert to
    strings, as the stored link does, adds an image for a truthy [image],
    writes the title, the description and the schedule line for a truthy
    [title], [description] and [operating_days_of_week], leaves each of them
    as it was otherwise, and points the anchor to the stored link. *)
Theorem showLinkPreview_fields (w : Widget) (props : gmap string plain)
    (c : list Child) (p : Preview) :
  container w = Some c ->
  preview w = Some p ->
  fields_convert line_keys (PObj props) = true ->
  vstringifiable (link (_data w)) = true ->
  let field (k : string) := default PUndefined (props !! k) in
  let w' := after (showLinkPreview (PObj props)) w in
  images <$> preview w' =
    Some (images p ++ if truthy (field "image") then [field "image"] else [])
  /\ linkTitle <$> preview w' =
    Some (if truthy (field "title") then Some (field "title") else linkTitle p)
  /\ linkDescription <$> preview w' =
    Some (if truthy (field "description") then Some (field "description")
          else linkDescription p)
  /\ infoWeek <$> preview w' =
    Some (if truthy (field "operating_days_of_week")
          then Some (field "operating_days_of_week") else infoWeek p)
  /\ href <$> preview w' = Some (Some (link (_data w))).
Proof.
  intros Hc Hp Hfields Hlink. cbv zeta.
  destruct (fields_convert_line props Hfields) as (Hi & Hti & Hde & Hwe).
  apply dom_write_value_ok in Hlink. clear Hfields.
  split_and!; run_preview; rewrite Hc; simpl; rewrite Hp; simpl;
    crush_preview; rewrite ?app_nil_r; simpl; try reflexivity;
    try congruence; bool_contra.
Qed.

(** X4.  When the stored link does not parse as a URL, [showLinkPreview]
    throws a [TypeError]: at the latest in the handler of the failed parse,
    which writes to a node that does not exist.  On a rendered widget, for
    an object whose values to show and whose stored link convert to strings
    and whose price is not an array, the method returns exactly when the
    link parses, and a URL with an empty host name is logged to the console
    once. *)
Theorem showLinkPreview_unparsable_link (w : Widget) (props : gmap string plain) :
  (hostname (link (_data w)) = None ->
   result (showLinkPreview (PObj props)) w = Throw TypeError)
  /\ (is_Some (container w) ->
      is_Some (preview w) ->
      fields_convert line_keys (PObj props) = true ->
      vstringifiable (link (_data w)) = true ->
      stringifiable (default PUndefined (props !! "lowest_price_gross"%string)) = true ->
      (forall elems, props !! "lowest_price_gross"%string <> Some (PArr elems)) ->
      result (showLinkPreview (PObj props)) w =
        match hostname (link (_data w)) with
        | Some _ => Ret tt
        | None => Throw TypeError
        end
      /\ console (after (showLinkPreview (PObj props)) w) =
         console w ++
         match hostname (link (_data w)) with
         | Some [] => [PStr (js "can't get host name")]
         | _ => []
         end).
Proof.
  split.
  - intros Hhost.
    assert (Hall : forall (A : Type) (o : outcome A) (e : error),
              o = Throw e -> e = TypeError \/ e = RequestError) by
      (intros A o []; auto).
    assert (Hw : forall p e, dom_write p = Throw e -> e = TypeError).
    { unfold dom_write. intros p e. destruct (stringifiable p); congruence. }
    assert (Hv : forall x e, dom_write_value x = Throw e -> e = TypeError).
    { unfold dom_write_value. intros x e. destruct (vstringifiable x); congruence. }
    assert (Hpt : forall lang price e, priceText lang price = Throw e -> e = TypeError).
    { unfold priceText, test_yen. intros lang price e.
      destruct (negb (is_string lang (js "ja-JP"))); [|discriminate].
      destruct (stringifiable price); cbn [obind]; [|congruence].
      destruct (prints_yen price); [|discriminate].
      destruct price; congruence. }
    run_preview.
    crush_preview;
      repeat match goal with
             | H : dom_write _ = Throw _ |- _ => apply Hw in H; subst
             | H : dom_write_value _ = Throw _ |- _ => apply Hv in H; subst
             | H : priceText _ _ = Throw _ |- _ => apply Hpt in H; subst
             end; try reflexivity; congruence.
  - intros [c Hc] [p Hp] Hfields Hlink Hconv Hprice.
    destruct (priceText_returns (language (config w))
                (default PUndefined (props !! "lowest_price_gross"%string)))
      as (text & Htext & Hwtext); [|exact Hconv|].
    { intros elems He. apply (Hprice elems).
      destruct (props !! "lowest_price_gross"%string); simpl in He; congruence. }
    destruct (fields_convert_line props Hfields) as (Hi & Hti & Hde & Hwe).
    apply dom_write_value_ok in Hlink. clear Hfields Hconv.
    split; run_preview; rewrite Hc; simpl; rewrite Hp; simpl;
      crush_preview; rewrite ?app_nil_r; simpl; try reflexivity;
      try congruence; bool_contra.
Qed.

End PreviewContent.

(** ** Rendering *)

Lemma make_lis_entries (es : list CatalogEntry) :
  make_lis (map entry_object es) = Ret (map entry_li es).
Proof.
  induction es as [|e es IH]; [reflexivity|].
  cbn [map make_lis]. rewrite make_li_entry. cbn [obind]. rewrite IH. reflexivity.
Qed.

Lemma makeInputHolder_entries (w : Widget) (entries : list CatalogEntry) :
  stringifiable (placeholder (config w)) = true ->
  acList (config w) = PArr (map entry_object entries) ->
  makeInputHolder w =
  (Ret tt, with_inputView (Some (fresh_view (config w) (map entry_li entries))) w).
Proof.
  intros Hshown Hcat. apply dom_write_ok in Hshown.
  unfold makeInputHolder, bind, gets, lift, modify.
  rewrite Hshown, Hcat. simpl. rewrite make_lis_entries. reflexivity.
Qed.


Section Rendering.

Context {rt : Runtime}.

Lemma render_view_cases (w : Widget) (entries : list CatalogEntry)
    (m : gmap string plain) :
  stringifiable (placeholder (config w)) = true ->
  acList (config w) = PArr (map entry_object entries) ->
  meta (_data w) = PObj m ->
  let w' := after render w in
  inputView w' = Some (fresh_view (config w) (map entry_li entries))
  /\ (m = ∅ ->
      result render w = Ret tt
      /\ container w' = Some [InputHolderNode]
      /\ preview w' = Some empty_preview)
  /\ (m <> ∅ ->
      container w' = Some [LinkContentNode]
      /\ (fields_convert card_keys (PObj m) = true ->
          vstringifiable (link (_data w)) = true ->
          href <$> preview w' = Some (Some (link (_data w))))).
Proof.
  intros Hshown Hcat Hmeta. cbv zeta.
  assert (Hrun : render w =
    match size m with
    | O => container_appendChild InputHolderNode
    | S _ =>
        (container_appendChild LinkContentNode;; showLinkPreview (PObj m))
    end (with_preview (Some empty_preview)
           (with_inputView (Some (fresh_view (config w) (map entry_li entries)))
              (with_container (Some []) w)))).
  { unfold render, bind at 1, modify.
    unfold bind at 1.
    rewrite (makeInputHolder_entries _ entries) by assumption.
    unfold bind, prepareLinkPreview, get_data, gets, lift, modify. simpl.
    rewrite Hmeta. simpl. destruct (size m); reflexivity. }
  unfold after, result. rewrite Hrun. split_and!.
  - destruct (size m); [reflexivity|].
    unfold bind, container_appendChild. simpl.
    match goal with
    | |- context [showLinkPreview ?b ?w2] =>
        change (snd (showLinkPreview b w2)) with (after (showLinkPreview b) w2)
    end.
    rewrite showLinkPreview_inputView. reflexivity.
  - intros ->. rewrite map_size_empty. split_and!; reflexivity.
  - intros Hne. destruct (size m) eqn:E.
    { apply map_size_empty_iff in E. contradiction. }
    unfold bind, container_appendChild. simpl.
    match goal with
    | |- context [showLinkPreview ?b ?w2] =>
        change (snd (showLinkPreview b w2)) with (after (showLinkPreview b) w2);
        set (w2' := w2)
    end.
    split.
    + rewrite (showLinkPreview_container _ _ [LinkContentNode]);
        [reflexivity | reflexivity | simpl; eauto].
    + intros Hfields Hlink.
      rewrite showLinkPreview_href;
        [reflexivity | simpl; eauto | simpl; eauto | exact Hfields | exact Hlink].
Qed.

(** X5.  With a placeholder that converts to a string, a catalog of entries
    and stored metadata that is an object, [render()] builds the input view
    with one [li] per entry, in the order of the catalog.  When the metadata
    has no key, the container holds the input holder alone and the preview
    is empty; when it has a key, the container holds the preview alone, and
    the anchor of the preview points to the stored link when the image, the
    title and the description of the metadata and the stored link convert to
    strings. *)
Theorem render_chooses_view (w : Widget) (entries : list CatalogEntry)
    (m : gmap string plain) :
  stringifiable (placeholder (config w)) = true ->
  acList (config w) = PArr (map entry_object entries) ->
  meta (_data w) = PObj m ->
  let w' := after render w in
  inputView w' = Some (fresh_view (config w) (map entry_li entries))
  /\ (m = ∅ ->
      result render w = Ret tt
      /\ container w' = Some [InputHolderNode]
      /\ preview w' = Some empty_preview)
  /\ (m <> ∅ ->
      container w' = Some [LinkContentNode]
      /\ (fields_convert card_keys (PObj m) = true ->
          vstringifiable (link (_data w)) = true ->
          href <$> preview w' = Some (Some (link (_data w))))).
Proof. exact (render_view_cases w entries m). Qed.


(** X6.  When [config.acList] is not an array, [render()] throws a
    [TypeError] at [acList.map], before the preview is prepared: the stored
    data and the preview nodes are as before, the container is empty, and
    nothing is notified. *)
Theorem render_needs_array (w : Widget) :
  (forall elems, acList (config w) <> PArr elems) ->
  let w' := after render w in
  result render w = Throw TypeError
  /\ _data w' = _data w
  /\ container w' = Some []
  /\ preview w' = preview w
  /\ notifier w' = notifier w.
Proof.
  intros Harr.
  assert (Hmake : makeInputHolder (with_container (Some []) w)
                  = (Throw TypeError, with_container (Some []) w)).
  { unfold makeInputHolder, bind, gets, lift. simpl.
    destruct (dom_write (placeholder (config w)))
      as [shown|[]] eqn:Hshown;
      [| reflexivity
       | unfold dom_write in Hshown;
         destruct (stringifiable (placeholder (config w))); discriminate].
    destruct (acList (config w)) as [| | | | | | |elems] eqn:E;
      try reflexivity.
    destruct (Harr elems eq_refl). }
  assert (Hrun : render w = (Throw TypeError, with_container (Some []) w)).
  { unfold render, bind at 1, modify. unfold bind at 1. rewrite Hmake.
    reflexivity. }
  cbv zeta. unfold after, result. rewrite Hrun. split_and!; reflexivity.
Qed.

End Rendering.

(** ** Choosing a product *)

(** X7.  On a rendered widget, a click on a product records its URL, writes
    its title into the input, closes the list, clears the error class, sets
    the progress bar loading, runs the setter with the URL and sends one
    request for it; it shows no notification and leaves the select where it
    is, attached or removed. *)
Theorem li_click_starts_fetch (w : Widget) (v : InputView) (li : Li) :
  inputView w = Some v ->
  let w' := after (li_click li) w in
  result (li_click li) w = Ret tt
  /\ url w' = li_url li
  /\ inputView w' =
     Some (with_progress true (progress_loaded v)
            (with_holder_error false
              (with_select_active false (with_input_value (li_title li) v))))
  /\ _data w' =
     {| link := vor_else (Plain (li_url li)) (link (_data w));
        meta := meta (_data w) |}
  /\ ajax w' = ajax w ++ [request_of w (li_url li)]
  /\ notifier w' = notifier w
  /\ (select_attached <$> inputView w') = Some (select_attached v).
Proof.
  intros Hv. cbv zeta. unfold li_click. run_methods. rewrite Hv. simpl.
  split_and!; reflexivity.
Qed.

(** ** Filtering, on its edges *)

(** Writing the children of a list changes nothing to what
    [document.getElementById] finds for the input. *)
Lemma getElementById_productSelectFilter_products (w : Widget) (v : InputView)
    (l : list Li) :
  inputView w = Some v ->
  getElementById_productSelectFilter (with_inputView (Some (with_products l v)) w)
  = getElementById_productSelectFilter w.
Proof.
  intros Hv. unfold getElementById_productSelectFilter, own_input_in_document,
    own_list_in_document. simpl. rewrite Hv. reflexivity.
Qed.

Lemma filter_elems_throws (f : plain -> outcome bool) (elems : list plain) :
  (forall x e, f x = Throw e -> e = TypeError) ->
  (exists x, In x elems /\ f x = Throw TypeError) ->
  filter_elems f elems = Throw TypeError.
Proof.
  intros Hf. induction elems as [|y elems IH]; intros (x & Hin & Hx).
  - destruct Hin.
  - cbn [filter_elems]. destruct (f y) as [b|e] eqn:Ey; cbn [obind].
    + destruct Hin as [-> | Hin]; [congruence|].
      rewrite IH by eauto. reflexivity.
    + rewrite (Hf y e Ey). reflexivity.
Qed.

Section FilteringEdges.

Context {rt : Runtime}.

(** What the handler reads from the input that [document.getElementById]
    finds: the text typed into the input of the widget, or the text of the
    first input elsewhere. *)
Lemma productSelectFilter_value_reads (w : Widget) (typed t : jsstring) :
  (getElementById_productSelectFilter w = Own /\ t = typed)
  \/ (getElementById_productSelectFilter w = Other
      /\ exists i, other_input (elsewhere w) = Some i /\ input_reads i = PStr t) ->
  productSelectFilter_value typed w = (Ret (PStr t), w).
Proof.
  unfold productSelectFilter_value.
  intros [[-> ->] | (-> & i & -> & ->)]; reflexivity.
Qed.

Lemma filteringProducts_own (w : Widget) (v : InputView)
    (entries : list CatalogEntry) (typed t : jsstring) :
  acList (config w) = PArr (map entry_object entries) ->
  productSelectFilter_value typed w = (Ret (PStr t), w) ->
  getElementById_productsList w = Own ->
  inputView w = Some v ->
  filteringProducts typed w =
  (Ret tt,
   with_inputView
     (Some (with_products (map entry_li (List.filter (matches t) entries)) v)) w).
Proof.
  intros Hcat Hread Hown Hv.
  unfold filteringProducts, bind. rewrite Hread.
  unfold productsList_clear, update_view. rewrite Hown, Hv.
  rewrite (filterProductsList_appends _ entries) by exact Hcat.
  rewrite (appendProducts_own _ _ (with_products [] v));
    [reflexivity | | reflexivity].
  rewrite (getElementById_productsList_products w v) by exact Hv. exact Hown.
Qed.

Lemma filteringProducts_other (w : Widget) (o : OtherList)
    (entries : list CatalogEntry) (typed t : jsstring) :
  acList (config w) = PArr (map entry_object entries) ->
  productSelectFilter_value typed w = (Ret (PStr t), w) ->
  getElementById_productsList w = Other ->
  other_list (elsewhere w) = Some o ->
  filteringProducts typed w =
  (Ret tt,
   with_elsewhere
     {| other_list :=
          Some {| list_precedes := list_precedes o;
                  list_items := map entry_li (List.filter (matches t) entries) |};
        other_input := other_input (elsewhere w) |} w).
Proof.
  intros Hcat Hread Hother Ho.
  unfold filteringProducts, bind. rewrite Hread.
  unfold productsList_clear, update_other_list. rewrite Hother, Ho.
  rewrite (filterProductsList_appends _ entries) by exact Hcat.
  rewrite (appendProducts_other _ _
             {| list_precedes := list_precedes o; list_items := [] |});
    [reflexivity | | reflexivity].
  rewrite (getElementById_productsList_items w o) by exact Ho. exact Hother.
Qed.

(** X8.  The [keyup] handler works on the input and the list that
    [document.getElementById] finds, which are the ones of the widget or
    the first ones elsewhere in the document.  When no input is found it
    throws a [TypeError] and changes nothing.  When the input found holds
    the string [t] (for the input of the widget, the text typed into it) and
    the catalog is one of entries, the handler replaces the children of the
    list found by one [li] per entry that passes the filter for [t], so that
    running it again changes nothing; when no list is found it throws a
    [TypeError] and changes nothing. *)
Theorem filteringProducts_replaces (w : Widget) (entries : list CatalogEntry)
    (typed : jsstring) :
  acList (config w) = PArr (map entry_object entries) ->
  (getElementById_productSelectFilter w = Missing ->
     filteringProducts typed w = (Throw TypeError, w))
  /\ (forall t : jsstring,
      (getElementById_productSelectFilter w = Own /\ t = typed)
      \/ (getElementById_productSelectFilter w = Other
          /\ exists i, other_input (elsewhere w) = Some i
                       /\ input_reads i = PStr t) ->
      let selected := map entry_li (List.filter (matches t) entries) in
      (forall v : InputView,
         getElementById_productsList w = Own ->
         inputView w = Some v ->
         let shown := with_inputView (Some (with_products selected v)) w in
         filteringProducts typed w = (Ret tt, shown)
         /\ filteringProducts typed shown = (Ret tt, shown))
      /\ (forall o : OtherList,
         getElementById_productsList w = Other ->
         other_list (elsewhere w) = Some o ->
         let shown :=
           with_elsewhere
             {| other_list := Some {| list_precedes := list_precedes o;
                                      list_items := selected |};
                other_input := other_input (elsewhere w) |} w in
         filteringProducts typed w = (Ret tt, shown)
         /\ filteringProducts typed shown = (Ret tt, shown))
      /\ (getElementById_productsList w = Missing ->
          filteringProducts typed w = (Throw TypeError, w))).
Proof.
  intros Hcat. split.
  - intros Hmiss. unfold filteringProducts, bind, productSelectFilter_value.
    rewrite Hmiss. reflexivity.
  - intros t Hread. cbv zeta. split_and!.
    + intros v Hown Hv.
      pose proof (productSelectFilter_value_reads w typed t Hread) as Hval.
      split; [apply filteringProducts_own; assumption|].
      rewrite (filteringProducts_own _
                 (with_products (map entry_li (List.filter (matches t) entries)) v)
                 entries typed t);
        [reflexivity | exact Hcat | | | reflexivity].
      * apply productSelectFilter_value_reads.
        rewrite (getElementById_productSelectFilter_products w v) by exact Hv.
        exact Hread.
      * rewrite (getElementById_productsList_products w v) by exact Hv.
        exact Hown.
    + intros o Hother Ho.
      pose proof (productSelectFilter_value_reads w typed t Hread) as Hval.
      split; [apply filteringProducts_other; assumption|].
      rewrite (filteringProducts_other _
                 {| list_precedes := list_precedes o;
                    list_items := map entry_li (List.filter (matches t) entries) |}
                 entries typed t);
        [reflexivity | exact Hcat | | | reflexivity].
      * apply productSelectFilter_value_reads. exact Hread.
      * rewrite (getElementById_productsList_items w o) by exact Ho.
        exact Hother.
    + intros Hmiss.
      unfold filteringProducts, bind.
      rewrite (productSelectFilter_value_reads w typed t Hread).
      unfold productsList_clear. rewrite Hmiss. reflexivity.
Qed.

(** X9.  [filterProductsList] throws a [TypeError] and changes nothing when
    [config.acList] is not an array, and also when the filter text,
    normalized, is not empty and some element of the catalog has no string
    as its title. *)
Theorem filterProductsList_malformed_catalog (w : Widget) (filterText : jsstring) :
  ((forall elems, acList (config w) <> PArr elems) ->
     filterProductsList filterText w = (Throw TypeError, w))
  /\ (forall (elems : list plain) (x : plain),
      acList (config w) = PArr elems ->
      In x elems ->
      (forall s, member x "title" <> Ret (PStr s)) ->
      normalized filterText <> [] ->
      filterProductsList filterText w = (Throw TypeError, w)).
Proof.
  split.
  - intros Harr. unfold filterProductsList, makeProductsList, bind, gets, lift.
    destruct (acList (config w)) as [| | | | | | |elems] eqn:E;
      try (destruct (is_empty _); reflexivity).
    destruct (Harr elems eq_refl).
  - intros elems x Hcat Hin Htitle Htext.
    unfold filterProductsList, bind, gets, lift. rewrite Hcat.
    fold (normalized filterText).
    destruct (is_empty (normalized filterText)) eqn:E.
    { apply is_empty_true in E. contradiction. }
    simpl. rewrite filter_elems_throws; [reflexivity | |].
    + intros y e. destruct (member y "title") as [ttl|e'] eqn:Em; cbn [obind].
      * destruct ttl; simpl; congruence.
      * destruct y; simpl in Em; congruence.
    + exists x. split; [exact Hin|].
      destruct (member x "title") as [ttl|e'] eqn:Em; cbn [obind].
      * destruct ttl; simpl; try reflexivity. destruct (Htitle s eq_refl).
      * destruct x; simpl in Em; congruence.
Qed.

(** X10.  With a catalog of entries, when [document.getElementById] finds
    no list in the document, neither the one of the widget nor one
    elsewhere, [filterProductsList] changes nothing: it returns when no
    entry passes the filter, and throws a [TypeError] when one does. *)
Theorem filterProductsList_outside_document (w : Widget)
    (entries : list CatalogEntry) (filterText : jsstring) :
  acList (config w) = PArr (map entry_object entries) ->
  getElementById_productsList w = Missing ->
  filterProductsList filterText w =
  (match List.filter (matches filterText) entries with
   | [] => Ret tt
   | _ :: _ => Throw TypeError
   end, w).
Proof.
  intros Hcat Hmiss. rewrite (filterProductsList_appends _ entries) by exact Hcat.
  rewrite (appendProducts_missing _ w Hmiss).
  destruct (List.filter (matches filterText) entries); reflexivity.
Qed.

End FilteringEdges.

(** ** The stored data *)

Lemma data_ok_step (l lk : value) (m mt : plain) :
  data_ok {| link := lk; meta := mt |} ->
  data_ok {| link := vor_else l lk; meta := or_else m mt |}.
Proof.
  unfold data_ok, vor_else, or_else. simpl. intros [Hm Hl]. split.
  - destruct (truthy m) eqn:E; assumption.
  - destruct (vtruthy l) eqn:E; [right|]; assumption.
Qed.

Lemma data_ok_eta (d : ToolData) :
  data_ok d -> data_ok {| link := link d; meta := meta d |}.
Proof. destruct d. exact id. Qed.

(** X11.  The setter composes: assigning [d1] and then [d2] is assigning
    the object whose link is [d2.link || d1.link] and whose metadata is
    [d2.meta || d1.meta]; in particular assigning the same object twice is
    assigning it once. *)
Theorem set_data_composes (d1 d2 : Assigned) (w : Widget) :
  (set_data d1;; set_data d2) w =
  set_data {| a_link := vor_else (a_link d2) (a_link d1);
              a_meta := or_else (a_meta d2) (a_meta d1) |} w
  /\ (set_data d1;; set_data d1) w = set_data d1 w.
Proof.
  unfold set_data, bind, modify, with_data, vor_else, or_else. simpl.
  split; repeat f_equal;
    destruct (vtruthy (a_link d2)) eqn:L2, (vtruthy (a_link d1)) eqn:L1,
      (truthy (a_meta d2)) eqn:M2, (truthy (a_meta d1)) eqn:M1;
    rewrite ?L1, ?L2, ?M1, ?M2; reflexivity.
Qed.

(** X12.  [new ProductList] on saved data that is an object, followed by
    [save()], returns the saved link if truthy, else [''], and the saved
    metadata if truthy, else [{}]; on saved data or on a configuration that
    is [null] or [undefined] the constructor throws a [TypeError]. *)
Theorem constructor_then_save (props cprops : gmap string plain) (a : Api)
    (ro : bool) :
  (exists w : Widget,
     constructor (PObj props) (PObj cprops) a ro = Ret w
     /\ save w =
        (Ret {| link := vor_else (Plain (default PUndefined (props !! "link"%string)))
                          (Plain (PStr []));
                meta := or_else (default PUndefined (props !! "meta"%string))
                          (PObj ∅) |}, w))
  /\ (forall data cfg : plain,
      data = PNull \/ data = PUndefined \/ cfg = PNull \/ cfg = PUndefined ->
      constructor data cfg a ro = Throw TypeError).
Proof.
  split.
  - eexists. split; reflexivity.
  - intros data cfg [-> | [-> | [-> | ->]]]; try reflexivity;
      unfold constructor;
      destruct (member cfg "endpoint") as [x1|[]] eqn:E1; try reflexivity;
      try (destruct cfg; discriminate);
      destruct (member cfg "headers") as [x2|[]] eqn:E2;
      try (destruct cfg; discriminate);
      destruct (member cfg "acList") as [x3|[]] eqn:E3;
      try (destruct cfg; discriminate);
      destruct (member cfg "placeHolder") as [x4|[]] eqn:E4;
      try (destruct cfg; discriminate);
      destruct (member cfg "language") as [x5|[]] eqn:E5;
      try (destruct cfg; discriminate);
      reflexivity.
Qed.

Section StoredData.

Context {rt : Runtime}.

(** X13.  A fetch on a widget that is not rendered sends no request and
    changes nothing: [fetchLinkData] throws a [TypeError] at the progress
    bar.  On a rendered widget every fetch, whatever the reply, sends one
    request, to [config.endpoint], with the query parameter [url] and with
    [undefined] as its headers. *)
Theorem fetch_sends_one_request (w : Widget) (url : plain) (r : Reply) :
  (inputView w = None -> fetch_cycle url r w = (Throw TypeError, w))
  /\ (is_Some (inputView w) ->
      ajax (after (fetch_cycle url r) w) =
      ajax w ++ [{| req_url := endpoint (config w); req_headers := PUndefined;
                    req_data_url := url |}]).
Proof.
  split.
  - intros Hv. run_methods. rewrite Hv. reflexivity.
  - apply fetch_cycle_single_request.
Qed.

Lemma fetch_cycle_data_ok (w : Widget) (url : plain) (r : Reply) :
  data_ok (_data w) -> data_ok (_data (after (fetch_cycle url r) w)).
Proof.
  intros Hok. apply data_ok_eta in Hok.
  destruct (inputView w) as [v|] eqn:Hv.
  - destruct r as [body code|].
    + destruct (400 <=? code) eqn:Hcode.
      * run_methods. rewrite Hv. simpl. rewrite Hcode. simpl.
        apply (data_ok_step _ _ PUndefined), Hok.
      * destruct (truthy body) eqn:Hbody.
        -- destruct (member_link_truthy body Hbody) as [l Hl].
           apply Z.leb_gt in Hcode. unfold after.
           rewrite (fetch_cycle_success_run w v url body code l Hv Hcode Hbody Hl).
           match goal with
           | |- context [showLinkPreview body ?w2] =>
               change (snd (showLinkPreview body w2))
                 with (after (showLinkPreview body) w2)
           end.
           rewrite showLinkPreview_data. simpl.
           pose proof (data_ok_step l _ body _
                         (data_ok_step (Plain url) _ PUndefined _ Hok)) as H.
           unfold or_else at 1 in H. rewrite Hbody in H. exact H.
        -- run_methods. rewrite Hv. simpl. rewrite Hcode. simpl.
           destruct body; try discriminate; simpl in *; rewrite ?Hbody; simpl;
             try apply (data_ok_step _ _ PUndefined), Hok;
             try (apply data_ok_step, (data_ok_step _ _ PUndefined), Hok).
    + run_methods. rewrite Hv. simpl.
      apply (data_ok_step _ _ PUndefined), Hok.
  - run_methods. rewrite Hv. simpl. destruct (_data w). exact Hok.
Qed.

(** X14.  The stored metadata is always truthy, and the stored link is
    always [''] or truthy: the constructor sets the data so, and the setter
    and every fetch, whatever the reply, keep them so.  Hence
    [Object.keys(this.data.meta)] in [render()] never throws. *)
Theorem data_always_ok :
  (forall (data cfg : plain) (a : Api) (ro : bool) (w : Widget),
     constructor data cfg a ro = Ret w -> data_ok (_data w))
  /\ (forall (w : Widget) (d : Assigned),
     data_ok (_data w) -> data_ok (_data (after (set_data d) w)))
  /\ (forall (w : Widget) (url : plain) (r : Reply),
     data_ok (_data w) -> data_ok (_data (after (fetch_cycle url r) w)))
  /\ (forall d : ToolData,
     data_ok d -> exists n : nat, keys_length (meta d) = Ret n).
Proof.
  split_and!.
  - intros data cfg a ro w. unfold constructor.
    destruct (member cfg "endpoint"); [|discriminate].
    destruct (member cfg "headers"); [|discriminate].
    destruct (member cfg "acList"); [|discriminate].
    destruct (member cfg "placeHolder"); [|discriminate].
    destruct (member cfg "language"); [|discriminate]. cbn [obind].
    unfold assign_data, set_data, bind, lift, modify.
    destruct (member_link data) as [l|]; [|discriminate].
    destruct (member data "meta") as [m|]; [|discriminate].
    intros [= <-]. simpl. apply data_ok_step. split; [reflexivity | left; reflexivity].
  - intros w d Hok. apply data_ok_eta in Hok. apply data_ok_step, Hok.
  - intros w url r. apply fetch_cycle_data_ok.
  - intros d [Hm _]. destruct (meta d); simpl in *; try discriminate; eauto.
Qed.

(** X15.  A response body that is a string, with a status below 400: on a
    rendered widget the stored link becomes the method
    [String.prototype.link], which is what [body.link] reads, and
    [validate()] throws a [TypeError] from then on. *)
Theorem string_body_breaks_link (w : Widget) (v : InputView) (url : plain)
    (s : jsstring) (code : Z) :
  inputView w = Some v ->
  code < 400 ->
  let w' := after (fetch_cycle url (Resolved (PStr s) code)) w in
  link (_data w') = StringPrototypeLink
  /\ result validate w' = Throw TypeError.
Proof.
  intros Hv Hcode. cbv zeta.
  assert (Hl : link (_data (after (fetch_cycle url (Resolved (PStr s) code)) w))
               = StringPrototypeLink).
  { destruct s as [|c s].
    - pose proof (fetch_falsy_primitive_body w url (PStr []) code Hcode
                    eq_refl ltac:(discriminate) ltac:(discriminate)
                    ltac:(rewrite Hv; eauto)) as (_ & _ & _ & _ & H).
      exact H.
    - unfold after.
      rewrite (fetch_cycle_success_run w v url (PStr (c :: s)) code
                 StringPrototypeLink Hv Hcode eq_refl eq_refl).
      match goal with
      | |- context [showLinkPreview ?b ?w2] =>
          change (snd (showLinkPreview b w2)) with (after (showLinkPreview b) w2)
      end.
      rewrite showLinkPreview_data. reflexivity. }
  split; [exact Hl|].
  unfold result, validate, bind, get_data, gets, throw. rewrite Hl. reflexivity.
Qed.

(** X16.  After a fetch for a URL that is a string with a character other
    than white space, that fails on a rejected request or on a status of 400
    or more, on a rendered widget: [save()] returns that URL as the link,
    with the metadata of before the fetch, and [validate()] returns true. *)
Theorem failed_fetch_is_kept (w : Widget) (v : InputView) (s : jsstring)
    (r : Reply) :
  inputView w = Some v ->
  trim s <> [] ->
  (r = Rejected \/ exists body code, r = Resolved body code /\ 400 <= code) ->
  let w' := after (fetch_cycle (PStr s) r) w in
  result save w' = Ret {| link := Plain (PStr s); meta := meta (_data w) |}
  /\ result validate w' = Ret true.
Proof.
  intros Hv Hs Hr. cbv zeta.
  assert (Hne : negb (is_empty s) = true).
  { destruct s; [|reflexivity]. destruct Hs. reflexivity. }
  assert (Hd : _data (after (fetch_cycle (PStr s) r) w)
               = {| link := Plain (PStr s); meta := meta (_data w) |}).
  { destruct Hr as [-> | (body & code & -> & Hcode)].
    - run_methods. rewrite Hv. simpl. unfold vor_else. simpl. rewrite Hne.
      reflexivity.
    - apply Z.leb_le in Hcode. run_methods. rewrite Hv. simpl. rewrite Hcode.
      simpl. unfold vor_else. simpl. rewrite Hne. reflexivity. }
  split.
  - unfold result, save, get_data, gets. simpl. fold (after (fetch_cycle (PStr s) r) w).
    rewrite Hd. reflexivity.
  - unfold result, validate, bind, get_data, gets, ret. simpl.
    fold (after (fetch_cycle (PStr s) r) w). rewrite Hd. simpl.
    destruct (trim s); [contradiction | reflexivity].
Qed.

End StoredData.

(** ** The further properties, on the sample widgets *)

(** The first product chosen on a new block, and the request rejected. *)
Lemma fetch_cycle_failure_witness :
  notifier (after (@fetch_cycle sample_runtime (PStr (entry_url apple)) Rejected)
              sample_widget)
  = notifier sample_widget
    ++ [{| message := i18n_t (api sample_widget) (js (failure_key Rejected));
           style := js "error" |}].
Proof.
  exact (proj1 (proj2 (@fetch_cycle_failure sample_runtime sample_widget
    (fresh_view (config sample_widget) [entry_li apple; entry_li banana])
    (PStr (entry_url apple)) Rejected
    ltac:(vm_compute; reflexivity) eq_refl))).
Defined.

(** The server answers 200 with [{ link: 'http://a', title: 'T' }]. *)
Lemma fetch_cycle_success_witness :
  let body := PObj (<["link"%string := PStr (js "http://a")]>
                    (<["title"%string := PStr (js "T")]> ∅)) in
  let w' := after (@fetch_cycle sample_runtime (PStr (entry_url apple))
                     (Resolved body 200)) sample_widget in
  exists l : value,
    member_link body = Ret l
    /\ _data w' = {| link := vor_else l (vor_else (Plain (PStr (entry_url apple)))
                                           (link (_data sample_widget)));
                     meta := body |}
    /\ href <$> preview w' = Some (Some (link (_data w'))).
Proof.
  cbv zeta.
  destruct (@fetch_cycle_success sample_runtime sample_widget
    (fresh_view (config sample_widget) [entry_li apple; entry_li banana])
    (PStr (entry_url apple))
    (PObj (<["link"%string := PStr (js "http://a")]>
           (<["title"%string := PStr (js "T")]> ∅))) 200
    ltac:(vm_compute; reflexivity) ltac:(lia) eq_refl)
    as (l & Hl & Hd & _ & _ & Hshown).
  exists l. split; [exact Hl|]. split; [exact Hd|].
  refine (proj2 (Hshown [InputHolderNode] _ _) _ _).
  - vm_compute. reflexivity.
  - vm_compute. eauto.
  - vm_compute. reflexivity.
  - vm_compute. reflexivity.
Defined.

(** Metadata with a title and no image, shown on a new block. *)
Lemma showLinkPreview_fields_witness :
  linkTitle <$> preview
    (after (@showLinkPreview sample_runtime
              (PObj (<["title"%string := PStr (js "T")]> ∅))) sample_widget)
  = Some (if truthy (default PUndefined
                       ((<["title"%string := PStr (js "T")]> ∅ : gmap string plain)
                          !! "title"%string))
          then Some (default PUndefined
                       ((<["title"%string := PStr (js "T")]> ∅ : gmap string plain)
                          !! "title"%string))
          else linkTitle empty_preview).
Proof.
  exact (proj1 (proj2 (@showLinkPreview_fields sample_runtime sample_widget
    (<["title"%string := PStr (js "T")]> ∅) [InputHolderNode] empty_preview
    ltac:(vm_compute; reflexivity) ltac:(vm_compute; reflexivity)
    ltac:(vm_compute; reflexivity) ltac:(vm_compute; reflexivity)))).
Defined.

(** The link of a new block is [''], which is no URL. *)
Lemma showLinkPreview_unparsable_link_witness :
  @hostname sample_runtime (link (_data sample_widget)) = None
  /\ result (@showLinkPreview sample_runtime (PObj ∅)) sample_widget = Throw TypeError
  /\ console (after (@showLinkPreview sample_runtime (PObj ∅)) sample_widget)
     = console sample_widget ++
       match @hostname sample_runtime (link (_data sample_widget)) with
       | Some [] => [PStr (js "can't get host name")]
       | _ => []
       end.
Proof.
  split; [vm_compute; reflexivity|]. split.
  - apply (proj1 (@showLinkPreview_unparsable_link sample_runtime sample_widget ∅)).
    vm_compute. reflexivity.
  - refine (proj2 (proj2 (@showLinkPreview_unparsable_link sample_runtime
                            sample_widget ∅) _ _ _ _ _ _)).
    + vm_compute. eauto.
    + vm_compute. eauto.
    + vm_compute. reflexivity.
    + vm_compute. reflexivity.
    + vm_compute. reflexivity.
    + intros elems. rewrite lookup_empty. discriminate.
Defined.

(** [render()] once more on the new block, which has no metadata. *)
Lemma render_chooses_view_witness :
  container (after (@render sample_runtime) sample_widget) = Some [InputHolderNode].
Proof.
  refine (proj1 (proj2 (proj1 (proj2 (@render_chooses_view sample_runtime
    sample_widget [apple; banana] ∅ _ _ _)) eq_refl))).
  - vm_compute. reflexivity.
  - vm_compute. reflexivity.
  - vm_compute. reflexivity.
Defined.

(** The block made with the configuration [{}]. *)
Lemma render_needs_array_witness :
  result (@render sample_runtime) (mounted (PObj ∅) (PObj ∅)) = Throw TypeError.
Proof.
  refine (proj1 (@render_needs_array sample_runtime (mounted (PObj ∅) (PObj ∅)) _)).
  intros elems. vm_compute. discriminate.
Defined.

(** A click on the first product of the new block. *)
Lemma li_click_starts_fetch_witness :
  ajax (after (li_click (entry_li apple)) sample_widget)
  = ajax sample_widget ++ [request_of sample_widget (li_url (entry_li apple))].
Proof.
  exact (proj1 (proj2 (proj2 (proj2 (proj2 (li_click_starts_fetch sample_widget
    (fresh_view (config sample_widget) [entry_li apple; entry_li banana])
    (entry_li apple) ltac:(vm_compute; reflexivity))))))).
Defined.

(** The full-width letters [AN] typed on the new block, alone in the
    document; and typed on the block that follows another one, whose input
    holds [pie]: the list of the other block gets the product found for
    [pie], and the list of the block itself stays as it is. *)
Lemma filteringProducts_replaces_witness :
  @filteringProducts sample_runtime [0xFF21; 0xFF2E] sample_widget
  = (Ret tt,
     with_inputView
       (Some (with_products [entry_li banana]
                (fresh_view (config sample_widget) [entry_li apple; entry_li banana])))
       sample_widget)
  /\ @filteringProducts sample_runtime [0xFF21; 0xFF2E] second_widget
     = (Ret tt,
        with_elsewhere
          {| other_list := Some {| list_precedes := true;
                                   list_items := [entry_li apple] |};
             other_input := other_input (elsewhere second_widget) |}
          second_widget).
Proof.
  split.
  - refine (proj1 (proj1 (proj2 (@filteringProducts_replaces sample_runtime
      sample_widget [apple; banana] [0xFF21; 0xFF2E] _) [0xFF21; 0xFF2E] _)
      (fresh_view (config sample_widget) [entry_li apple; entry_li banana]) _ _)).
    + vm_compute. reflexivity.
    + left. split; [vm_compute; reflexivity | reflexivity].
    + vm_compute. reflexivity.
    + vm_compute. reflexivity.
  - refine (proj1 (proj1 (proj2 (proj2 (@filteringProducts_replaces sample_runtime
      second_widget [apple; banana] [0xFF21; 0xFF2E] _) (js "pie") _))
      {| list_precedes := true; list_items := [] |} _ _)).
    + vm_compute. reflexivity.
    + right. split; [vm_compute; reflexivity|].
      exists {| input_precedes := true; input_reads := PStr (js "pie") |}.
      split; [vm_compute; reflexivity | reflexivity].
    + vm_compute. reflexivity.
    + vm_compute. reflexivity.
Defined.

(** A catalog whose one element has a URL and no title, and the filter
    text [a]. *)
Lemma filterProductsList_malformed_catalog_witness :
  let w :=
    mounted (PObj ∅)
      (PObj (<["acList"%string :=
                 PArr [PObj (<["url"%string := PStr (js "http://shop/x")]> ∅)]]> ∅)) in
  @filterProductsList sample_runtime (js "a") w = (Throw TypeError, w).
Proof.
  cbv zeta.
  refine (proj2 (@filterProductsList_malformed_catalog sample_runtime _ (js "a"))
            [PObj (<["url"%string := PStr (js "http://shop/x")]> ∅)]
            (PObj (<["url"%string := PStr (js "http://shop/x")]> ∅)) _ _ _ _).
  - vm_compute. reflexivity.
  - left. reflexivity.
  - intros s. vm_compute. discriminate.
  - vm_compute. discriminate.
Defined.

(** The new block before the host inserts it, and the filter text [an]. *)
Lemma filterProductsList_outside_document_witness :
  @filterProductsList sample_runtime (js "an") (with_in_document false sample_widget)
  = (match List.filter (@matches sample_runtime (js "an")) [apple; banana] with
     | [] => Ret tt
     | _ :: _ => Throw TypeError
     end, with_in_document false sample_widget).
Proof.
  apply (@filterProductsList_outside_document sample_runtime).
  - vm_compute. reflexivity.
  - vm_compute. reflexivity.
Defined.

(** Saved data [null]. *)
Lemma constructor_then_save_witness :
  constructor PNull (PObj ∅) sample_api false = Throw TypeError.
Proof.
  apply (proj2 (constructor_then_save ∅ ∅ sample_api false) PNull (PObj ∅)).
  left. reflexivity.
Defined.

(** The new block, any product, and the server answering 500. *)
Lemma fetch_sends_one_request_witness :
  ajax (after (@fetch_cycle sample_runtime (PStr (entry_url banana))
                 (Resolved PNull 500)) sample_widget)
  = ajax sample_widget
    ++ [{| req_url := endpoint (config sample_widget); req_headers := PUndefined;
           req_data_url := PStr (entry_url banana) |}].
Proof.
  apply (proj2 (@fetch_sends_one_request sample_runtime sample_widget
                  (PStr (entry_url banana)) (Resolved PNull 500))).
  vm_compute. eauto.
Defined.

(** The data of the saved block, after a fetch answered with a string. *)
Lemma data_always_ok_witness :
  data_ok (_data (after (@fetch_cycle sample_runtime (PStr (entry_url apple))
                           (Resolved (PStr (js "oops")) 200)) saved_widget)).
Proof.
  apply (proj1 (proj2 (proj2 (@data_always_ok sample_runtime)))).
  vm_compute. split; [reflexivity | right; reflexivity].
Defined.

(** The server answers 200 with the text [oops]. *)
Lemma string_body_breaks_link_witness :
  result validate
    (after (@fetch_cycle sample_runtime (PStr (entry_url apple))
              (Resolved (PStr (js "oops")) 200)) sample_widget)
  = Throw TypeError.
Proof.
  exact (proj2 (@string_body_breaks_link sample_runtime sample_widget
    (fresh_view (config sample_widget) [entry_li apple; entry_li banana])
    (PStr (entry_url apple)) (js "oops") 200
    ltac:(vm_compute; reflexivity) ltac:(lia))).
Defined.

(** The first product chosen on a new block, and the request rejected. *)
Lemma failed_fetch_is_kept_witness :
  result validate
    (after (@fetch_cycle sample_runtime (PStr (entry_url apple)) Rejected)
       sample_widget)
  = Ret true.
Proof.
  refine (proj2 (@failed_fetch_is_kept sample_runtime sample_widget
    (fresh_view (config sample_widget) [entry_li apple; entry_li banana])
    (entry_url apple) Rejected _ _ _)).
  - vm_compute. reflexivity.
  - vm_compute. discriminate.
  - left. reflexivity.
Defined.

